(** * Green-path server: the [Path] entity (src/app/path.py) and the
      geometry helpers (src/utils/geometry.py)

    A shallow embedding of [app.path.Path] and of the functions of
    [utils.geometry], with the properties of the edge-group segmentation,
    of the attribute aggregation, of the length differences, of the
    GeoJSON features and of the geometry helpers proved about the embedded
    functions.

    Python values are modelled as the interpreter has them: [int] as [Z],
    [float] as a binary64 primitive float, [None] as an [option], a [dict]
    as a finite map, a raised exception as a [Raise] outcome. *)

From Stdlib Require Import ZArith Lia Bool List.
From Stdlib Require Import PrimFloat SpecFloat FloatOps FloatAxioms.
From stdpp Require Import base option list strings gmap.

Local Open Scope Z_scope.

(** ** Outcomes of a call: a returned value or a raised exception *)

(** The exceptions the methods of [Path] raise themselves, and
    [Propagated] for one that leaves a collaborator (the graph handler, the
    geometry library, the noise and air-quality summaries) and passes
    through the method unhandled. *)
Inductive exc : Type :=
  | ValueError (msg : string)
  | TypeError
  | AttributeError (attr : string)
  | ZeroDivisionError
  | OverflowError
  | Propagated (origin : string).

(** A method that raises has, for every method but
    [set_green_path_diff_attrs], assigned no attribute yet: the path is then
    what it was, and [Raise] carries no state. *)
Inductive result (A : Type) : Type :=
  | Ok (a : A)
  | Raise (e : exc).
Arguments Ok {A} a.
Arguments Raise {A} e.

Definition bind {A B : Type} (r : result A) (k : A -> result B) : result B :=
  match r with
  | Ok a => k a
  | Raise e => Raise e
  end.

Notation "x <- r ;; k" := (bind r (fun x => k))
  (at level 100, r at next level, right associativity).

(** What a collaborator answers: its value, or the description of the
    exception it raised. *)
Inductive answer (A : Type) : Type :=
  | Returned (a : A)
  | Failed (origin : string).
Arguments Returned {A} a.
Arguments Failed {A} origin.

Definition propagate {A : Type} (r : answer A) : result A :=
  match r with
  | Returned a => Ok a
  | Failed o => Raise (Propagated o)
  end.

Definition returns {A : Type} (r : result A) : Prop := exists a, r = Ok a.

(** ** Python numbers and the builtins the methods use *)

(** A number is an [int] (unbounded) or a [float] (binary64). The methods
    meet both: edge lengths are floats, while the literals [0] and [100],
    the initial [len_diff] and the [sum] of no item at all are ints. *)
Inductive num : Type :=
  | PyInt (z : Z)
  | PyFloat (f : float).

(** An integer as an unrounded binary number [z * 2^0]. *)
Definition SF_of_Z (z : Z) : spec_float :=
  match z with
  | Z0 => S754_zero false
  | Zpos p => S754_finite false p 0
  | Zneg p => S754_finite true p 0
  end.

Definition float_of_SF (sf : spec_float) : result float :=
  match sf with
  | S754_infinity _ => Raise OverflowError
  | _ => Ok (SF2Prim sf)
  end.

(** [float(z)]: the nearest binary64 (ties to even); [OverflowError] when
    [z] is too large for a float. *)
Definition float_of_int (z : Z) : result float :=
  float_of_SF (binary_normalize prec emax z 0 false).

(** [a op b] for [+], [-] and [*]: an int operand is converted when the
    other one is a float. *)
Definition arith (fi : Z -> Z -> Z) (ff : float -> float -> float)
    (a b : num) : result num :=
  match a, b with
  | PyInt x, PyInt y => Ok (PyInt (fi x y))
  | PyFloat x, PyFloat y => Ok (PyFloat (ff x y))
  | PyInt x, PyFloat y => x' <- float_of_int x ;; Ok (PyFloat (ff x' y))
  | PyFloat x, PyInt y => y' <- float_of_int y ;; Ok (PyFloat (ff x y'))
  end.

Definition py_add : num -> num -> result num := arith Z.add PrimFloat.add.
Definition py_sub : num -> num -> result num := arith Z.sub PrimFloat.sub.
Definition py_mul : num -> num -> result num := arith Z.mul PrimFloat.mul.

(** [x / y] on floats: Python raises on a zero divisor (of either sign)
    instead of answering an infinity. *)
Definition float_truediv (x y : float) : result float :=
  if (y =? 0)%float then Raise ZeroDivisionError else Ok (x / y)%float.

(** [a / b] on ints: the correctly rounded quotient. *)
Definition int_truediv (a b : Z) : result float :=
  if b =? 0 then Raise ZeroDivisionError
  else float_of_SF (SFdiv prec emax (SF_of_Z a) (SF_of_Z b)).

Definition py_truediv (a b : num) : result num :=
  match a, b with
  | PyInt x, PyInt y => q <- int_truediv x y ;; Ok (PyFloat q)
  | PyFloat x, PyFloat y => q <- float_truediv x y ;; Ok (PyFloat q)
  | PyInt x, PyFloat y =>
      x' <- float_of_int x ;; q <- float_truediv x' y ;; Ok (PyFloat q)
  | PyFloat x, PyInt y =>
      y' <- float_of_int y ;; q <- float_truediv x y' ;; Ok (PyFloat q)
  end.

(** The exact comparison of a float with an int: [None] for a NaN. *)
Definition float_cmp_int (f : float) (z : Z) : option comparison :=
  match Prim2SF f with
  | S754_nan => None
  | S754_infinity s => Some (if s then Lt else Gt)
  | S754_zero _ => Some (0 ?= z)
  | S754_finite s m e =>
      let v := if s then Zneg m else Zpos m in
      Some (if 0 <=? e then v * 2 ^ e ?= z else v ?= z * 2 ^ (- e))
  end.

(** [a > b] *)
Definition py_gt (a b : num) : bool :=
  match a, b with
  | PyInt x, PyInt y => y <? x
  | PyFloat x, PyFloat y => (y <? x)%float
  | PyFloat x, PyInt y =>
      match float_cmp_int x y with Some Gt => true | _ => false end
  | PyInt x, PyFloat y =>
      match float_cmp_int y x with Some Lt => true | _ => false end
  end.

(** [a == 0] *)
Definition is_zero (a : num) : bool :=
  match a with
  | PyInt z => z =? 0
  | PyFloat f => (f =? 0)%float
  end.

(** Neither a NaN nor an infinity. *)
Definition finite_num (a : num) : bool :=
  match a with
  | PyInt _ => true
  | PyFloat f => is_finite f
  end.

(** The integer nearest to [n / d] for [0 < d], ties to the even one. *)
Definition round_half_even (n d : Z) : Z :=
  let q := n / d in
  match 2 * (n mod d) ?= d with
  | Lt => q
  | Gt => q + 1
  | Eq => if Z.even q then q else q + 1
  end.

(** [round(x, ndigits)] on a float, for [0 <= ndigits] (every call of the
    sources passes a literal 1, 2 or 6): the exact value of [x] is rounded
    to [ndigits] decimals, ties to even, and the binary64 nearest to that
    decimal is returned; the sign is kept, and a NaN, an infinity or a zero
    is returned as it is. No exception is possible for these [ndigits]. *)
Definition float_round (x : float) (ndigits : nat) : float :=
  match Prim2SF x with
  | S754_finite s m e =>
      let p := 10 ^ Z.of_nat ndigits in
      let k := if 0 <=? e then Zpos m * 2 ^ e * p
               else round_half_even (Zpos m * p) (2 ^ (- e)) in
      let dec := match k with
                 | Zpos k' => S754_finite s k' 0
                 | _ => S754_zero s
                 end in
      SF2Prim (SFdiv prec emax dec (S754_finite false (Z.to_pos p) 0))
  | _ => x
  end.

(** [round(a, ndigits)]: an int is its own rounding for [0 <= ndigits]. *)
Definition py_round (a : num) (ndigits : nat) : num :=
  match a with
  | PyInt z => PyInt z
  | PyFloat f => PyFloat (float_round f ndigits)
  end.

(** [sum(items)]: starts from the int [0] and adds the items from left to
    right, floats by the binary64 addition (as CPython does up to version
    3.11; the sources are of 2020). *)
Definition py_sum (items : list num) : result num :=
  fold_left (fun acc x => a <- acc ;; py_add a x) items (Ok (PyInt 0)).

(** The two readings of "the sum of the lengths rounded to [ndigits]
    decimals": the sum rounded once, and each length rounded before the
    sum. *)
Definition sum_then_round (lengths : list float) (ndigits : nat) : result num :=
  total <- py_sum (map PyFloat lengths) ;; Ok (py_round total ndigits).

Definition round_then_sum (lengths : list float) (ndigits : nat) : result num :=
  py_sum (map (fun l => py_round (PyFloat l) ndigits) lengths).

(** ** Values of a GeoJSON properties block *)

#[local] Unset Elimination Schemes.
Inductive value : Type :=
  | VNone
  | VBool (b : bool)
  | VNum (n : num)
  | VStr (s : string)
  | VList (items : list value)
  | VDict (items : list (string * value)).
#[local] Set Elimination Schemes.

Definition value_of_num (n : option num) : value :=
  match n with
  | Some x => VNum x
  | None => VNone
  end.

(** A coordinate tuple [(x, y)]. *)
Definition coord : Type := float * float.

(** ** utils/geometry.py *)

Module geom_utils.

Definition round_coordinates (coords_list : list coord) (digits : nat)
    : list coord :=
  map (fun coords => (float_round (fst coords) digits,
                      float_round (snd coords) digits)) coords_list.

End geom_utils.

(** ** The collaborators of [Path]

    [app.types], [app.graph_handler], [app.path_noise_attrs],
    [app.path_aqi_attrs], [app.constants] and the geometry library are
    imported by path.py and not part of these sources: their types are
    parameters, and so are their operations, each answering a value or
    failing. *)
Class Externals : Type := {
  Noises : Type;           (* an edge's noise exposure value *)
  DbCosts : Type;          (* the [db_costs] dict *)
  GraphHandler : Type;
  Geometry : Type;         (* a shapely geometry *)
  PathNoiseAttrs : Type;
  PathAqiAttrs : Type;
  PathType : Type
}.

(** Modelled from the spec: the class [PathEdge] of [app.types], which is
    missing from the sources. Its fields are the attributes path.py reads;
    "noise/air-quality fields may be absent (unknown), represented as an
    explicit no-value marker", the two lengths are floats and the
    discretized air-quality class and decibel band are integers. *)
Module PathEdge.
Section Def.
Context {X : Externals}.

Record t : Type := {
  coords : list coord;
  coords_wgs : list coord;
  length : float;
  length_b : float;
  noises : option Noises;
  aqi : option float;
  aqi_cl : Z;
  db_range : Z
}.
End Def.
Arguments t {X}.
End PathEdge.

Class Collaborators {X : Externals} : Type := {
  (* GraphHandler.get_path_edges_by_ids *)
  get_path_edges_by_ids : GraphHandler -> list Z -> answer (list PathEdge.t);
  (* shapely.geometry.LineString *)
  LineString : list coord -> answer Geometry;
  (* app.path_noise_attrs.create_path_noise_attrs(noises_list, db_costs, length) *)
  create_path_noise_attrs :
    list (option Noises) -> DbCosts -> option num -> answer PathNoiseAttrs;
  (* app.path_aqi_attrs.create_aqi_attrs(aqi_exp_list, length) *)
  create_aqi_attrs :
    list (option float * float) -> option num -> answer PathAqiAttrs;
  (* PathNoiseAttrs.set_noise_diff_attrs(other, len_diff): the updated summary *)
  set_noise_diff_attrs :
    PathNoiseAttrs -> PathNoiseAttrs -> num -> answer PathNoiseAttrs;
  (* PathAqiAttrs.set_aqi_diff_attrs(other, len_diff): the updated summary *)
  set_aqi_diff_attrs :
    PathAqiAttrs -> PathAqiAttrs -> num -> answer PathAqiAttrs;
  get_noise_props_dict : PathNoiseAttrs -> answer (gmap string value);
  get_aqi_props_dict : PathAqiAttrs -> answer (gmap string value);
  (* the attribute [value] of a path type *)
  path_type_value : PathType -> answer value
}.

(** A GeoJSON feature: the dict built by [__get_geojson_feature_dict]. *)
Record feature_geometry : Type := {
  coordinates : list coord;
  geometry_type : string          (* key 'type' *)
}.

Record feature : Type := {
  feature_type : string;          (* key 'type' *)
  properties : gmap string value;
  feature_geom : feature_geometry (* key 'geometry' *)
}.

(** ** class Path *)

Module Path.
Section Methods.
Context {X : Externals} {C : Collaborators}.

(** An edge group [(value, edges)]. *)
Definition group : Type := Z * list PathEdge.t.

(** The attributes of an instance. [length_b] is the one attribute that
    [__init__] does not create: it is [None] here until
    [aggregate_path_attrs] assigns it, and reading it before raises
    [AttributeError]. For the other optional attributes [None] is
    Python's [None]. *)
Record t : Type := {
  orig_node : Z;
  edge_ids : list Z;
  edges : list PathEdge.t;
  edge_groups : list group;
  name : string;
  path_type : PathType;
  cost_coeff : num;
  geometry : option Geometry;
  length : option num;
  length_b : option num;
  len_diff : num;
  len_diff_rat : option num;
  missing_aqi : bool;
  missing_noises : bool;
  noise_attrs : option PathNoiseAttrs;
  aqi_attrs : option PathAqiAttrs
}.

(** [Path(orig_node, edge_ids, name, path_type, cost_coeff)]; the default
    of [cost_coeff] is [0.0]. *)
Definition init (orig_node : Z) (edge_ids : list Z) (name : string)
    (path_type : PathType) (cost_coeff : num) : t :=
  {| orig_node := orig_node;
     edge_ids := edge_ids;
     edges := [];
     edge_groups := [];
     name := name;
     path_type := path_type;
     cost_coeff := cost_coeff;
     geometry := None;
     length := None;
     length_b := None;
     len_diff := PyInt 0;
     len_diff_rat := None;
     missing_aqi := false;
     missing_noises := false;
     noise_attrs := None;
     aqi_attrs := None |}.

Definition default_cost_coeff : num := PyFloat 0.

Definition set_path_name (path_name : string) (self : t) : t :=
  {| orig_node := orig_node self; edge_ids := edge_ids self;
     edges := edges self; edge_groups := edge_groups self;
     name := path_name;
     path_type := path_type self; cost_coeff := cost_coeff self;
     geometry := geometry self; length := length self;
     length_b := length_b self; len_diff := len_diff self;
     len_diff_rat := len_diff_rat self; missing_aqi := missing_aqi self;
     missing_noises := missing_noises self;
     noise_attrs := noise_attrs self; aqi_attrs := aqi_attrs self |}.

Definition set_path_type (new_type : PathType) (self : t) : t :=
  {| orig_node := orig_node self; edge_ids := edge_ids self;
     edges := edges self; edge_groups := edge_groups self;
     name := name self;
     path_type := new_type;
     cost_coeff := cost_coeff self;
     geometry := geometry self; length := length self;
     length_b := length_b self; len_diff := len_diff self;
     len_diff_rat := len_diff_rat self; missing_aqi := missing_aqi self;
     missing_noises := missing_noises self;
     noise_attrs := noise_attrs self; aqi_attrs := aqi_attrs self |}.

Definition with_edges (es : list PathEdge.t) (self : t) : t :=
  {| orig_node := orig_node self; edge_ids := edge_ids self;
     edges := es;
     edge_groups := edge_groups self; name := name self;
     path_type := path_type self; cost_coeff := cost_coeff self;
     geometry := geometry self; length := length self;
     length_b := length_b self; len_diff := len_diff self;
     len_diff_rat := len_diff_rat self; missing_aqi := missing_aqi self;
     missing_noises := missing_noises self;
     noise_attrs := noise_attrs self; aqi_attrs := aqi_attrs self |}.

Definition set_path_edges (G : GraphHandler) (self : t) : result t :=
  es <- propagate (get_path_edges_by_ids G (edge_ids self)) ;;
  Ok (with_edges es self).

(** [None in items] *)
Definition None_in {A : Type} (items : list (option A)) : bool :=
  existsb (fun x => match x with None => true | Some _ => false end) items.

Definition aggregate_path_attrs (self : t) : result t :=
  let path_coords := flat_map PathEdge.coords (edges self) in
  geom <- propagate (LineString path_coords) ;;
  len <- py_sum (map (fun edge => PyFloat (PathEdge.length edge)) (edges self)) ;;
  len_b <- py_sum (map (fun edge => PyFloat (PathEdge.length_b edge)) (edges self)) ;;
  Ok {| orig_node := orig_node self; edge_ids := edge_ids self;
        edges := edges self; edge_groups := edge_groups self;
        name := name self; path_type := path_type self;
        cost_coeff := cost_coeff self;
        geometry := Some geom;
        length := Some (py_round len 2);
        length_b := Some (py_round len_b 2);
        len_diff := len_diff self; len_diff_rat := len_diff_rat self;
        missing_aqi :=
          if None_in (map PathEdge.aqi (edges self)) then true else false;
        missing_noises :=
          if None_in (map PathEdge.noises (edges self)) then true else false;
        noise_attrs := noise_attrs self; aqi_attrs := aqi_attrs self |}.

Definition with_noise_attrs (na : option PathNoiseAttrs) (self : t) : t :=
  {| orig_node := orig_node self; edge_ids := edge_ids self;
     edges := edges self; edge_groups := edge_groups self;
     name := name self; path_type := path_type self;
     cost_coeff := cost_coeff self; geometry := geometry self;
     length := length self; length_b := length_b self;
     len_diff := len_diff self; len_diff_rat := len_diff_rat self;
     missing_aqi := missing_aqi self;
     missing_noises := missing_noises self;
     noise_attrs := na;
     aqi_attrs := aqi_attrs self |}.

Definition with_aqi_attrs (aa : option PathAqiAttrs) (self : t) : t :=
  {| orig_node := orig_node self; edge_ids := edge_ids self;
     edges := edges self; edge_groups := edge_groups self;
     name := name self; path_type := path_type self;
     cost_coeff := cost_coeff self; geometry := geometry self;
     length := length self; length_b := length_b self;
     len_diff := len_diff self; len_diff_rat := len_diff_rat self;
     missing_aqi := missing_aqi self;
     missing_noises := missing_noises self;
     noise_attrs := noise_attrs self;
     aqi_attrs := aa |}.

Definition set_noise_attrs (db_costs : DbCosts) (self : t) : result t :=
  if negb (missing_noises self) then
    let noises_list := map PathEdge.noises (edges self) in
    na <- propagate (create_path_noise_attrs noises_list db_costs (length self)) ;;
    Ok (with_noise_attrs (Some na) self)
  else Ok self.

Definition set_aqi_attrs (self : t) : result t :=
  if negb (missing_aqi self) then
    let aqi_exp_list :=
      map (fun edge => (PathEdge.aqi edge, PathEdge.length edge)) (edges self) in
    aa <- propagate (create_aqi_attrs aqi_exp_list (length self)) ;;
    Ok (with_aqi_attrs (Some aa) self)
  else Ok self.

(** An operand that is [None] makes [-], [/] and [>] raise [TypeError]. *)
Definition operand (x : option num) : result num :=
  match x with
  | Some n => Ok n
  | None => Raise TypeError
  end.

(** A summary object is truthy, [None] is falsy: the diff method of the
    summary runs when both paths have one, and updates the summary of
    [self]. *)
Definition set_green_path_diff_attrs (shortest_path : t) (self : t)
    : result t :=
  a <- operand (length self) ;;
  b <- operand (length shortest_path) ;;
  d <- py_sub a b ;;
  let new_len_diff := py_round d 1 in
  new_len_diff_rat <-
    (if py_gt b (PyInt 0) then
       q <- py_truediv new_len_diff b ;;
       m <- py_mul q (PyInt 100) ;;
       Ok (py_round m 1)
     else Ok (PyInt 0)) ;;
  na <- match noise_attrs self, noise_attrs shortest_path with
        | Some mine, Some theirs =>
            r <- propagate (set_noise_diff_attrs mine theirs new_len_diff) ;;
            Ok (Some r)
        | mine, _ => Ok mine
        end ;;
  aa <- match aqi_attrs self, aqi_attrs shortest_path with
        | Some mine, Some theirs =>
            r <- propagate (set_aqi_diff_attrs mine theirs new_len_diff) ;;
            Ok (Some r)
        | mine, _ => Ok mine
        end ;;
  Ok {| orig_node := orig_node self; edge_ids := edge_ids self;
        edges := edges self; edge_groups := edge_groups self;
        name := name self; path_type := path_type self;
        cost_coeff := cost_coeff self; geometry := geometry self;
        length := length self; length_b := length_b self;
        len_diff := new_len_diff;
        len_diff_rat := Some new_len_diff_rat;
        missing_aqi := missing_aqi self;
        missing_noises := missing_noises self;
        noise_attrs := na;
        aqi_attrs := aa |}.

Definition with_edge_groups (gs : list group) (self : t) : t :=
  {| orig_node := orig_node self; edge_ids := edge_ids self;
     edges := edges self;
     edge_groups := gs;
     name := name self; path_type := path_type self;
     cost_coeff := cost_coeff self; geometry := geometry self;
     length := length self; length_b := length_b self;
     len_diff := len_diff self; len_diff_rat := len_diff_rat self;
     missing_aqi := missing_aqi self;
     missing_noises := missing_noises self;
     noise_attrs := noise_attrs self; aqi_attrs := aqi_attrs self |}.

(** The variables of the loop of [aggregate_edge_groups_by_attr]:
    [self.edge_groups] and the two locals. *)
Record scan : Type := {
  groups : list group;
  cur_group : list PathEdge.t;
  cur_group_id : Z
}.

(** [edge.aqi_cl if aq else edge.db_range] *)
Definition group_value (aq : bool) (edge : PathEdge.t) : Z :=
  if aq then PathEdge.aqi_cl edge else PathEdge.db_range edge.

(** A list is truthy when it is not empty. *)
Definition truthy {A : Type} (l : list A) : bool :=
  match l with
  | [] => false
  | _ :: _ => true
  end.

(** One iteration of the loop body. *)
Definition scan_edge (aq : bool) (st : scan) (edge : PathEdge.t) : scan :=
  let value := group_value aq edge in
  if value =? cur_group_id st then
    {| groups := groups st;
       cur_group := cur_group st ++ [edge];
       cur_group_id := cur_group_id st |}
  else
    {| groups := if truthy (cur_group st)
                 then groups st ++ [(cur_group_id st, cur_group st)]
                 else groups st;
       cur_group := [edge];
       cur_group_id := value |}.

Definition aggregate_edge_groups_by_attr (aq noise : bool) (self : t)
    : result t :=
  if Bool.eqb aq noise || (negb aq && negb noise) then
    Raise (ValueError "Group edges by either aq or noise, not both or neither")
  else
    let st := fold_left (scan_edge aq) (edges self)
                {| groups := edge_groups self;
                   cur_group := [];
                   cur_group_id := 0 |} in
    Ok (with_edge_groups (groups st ++ [(cur_group_id st, cur_group st)]) self).

(** The groups that are appended from the state of the locals [group_id]
    and [buffer] on, when [rest] is still to be scanned, the final one
    included: the loop read from its first iteration instead of its last. *)
Fixpoint runs (aq : bool) (group_id : Z) (buffer rest : list PathEdge.t)
    : list group :=
  match rest with
  | [] => [(group_id, buffer)]
  | edge :: rest' =>
      if group_value aq edge =? group_id then
        runs aq group_id (buffer ++ [edge]) rest'
      else
        (if truthy buffer then [(group_id, buffer)] else [])
        ++ runs aq (group_value aq edge) [edge] rest'
  end.

(** The output of a call: it returns, and [gs] are the groups it has
    appended to [self.edge_groups]. *)
Definition appends (aq noise : bool) (self : t) (gs : list group) : Prop :=
  exists self', aggregate_edge_groups_by_attr aq noise self = Ok self'
                /\ edge_groups self' = edge_groups self ++ gs.

(** Every edge of a group carries the value of its group. *)
Definition homogeneous (aq : bool) (g : group) : Prop :=
  Forall (fun edge => group_value aq edge = fst g) (snd g).

(** No two neighbours of a list of groups carry the same value. *)
Definition alternating (gs : list group) : Prop :=
  forall (i : nat) (g h : group),
    gs !! i = Some g -> gs !! S i = Some h -> fst g <> fst h.

Definition get_geojson_feature_dict (coords : list coord) : feature :=
  {| feature_type := "Feature";
     properties := ∅;
     feature_geom := {| coordinates := coords;
                        geometry_type := "LineString" |} |}.

Definition with_properties (props : gmap string value) (f : feature)
    : feature :=
  {| feature_type := feature_type f;
     properties := props;
     feature_geom := feature_geom f |}.

Definition get_edge_groups_as_features (self : t) : list feature :=
  map (fun g : group =>
         let group_coords := flat_map PathEdge.coords_wgs (snd g) in
         let group_coords := geom_utils.round_coordinates group_coords 6 in
         let feature := get_geojson_feature_dict group_coords in
         with_properties
           (<["value" := VNum (PyInt (fst g))]>
            (<["path" := VStr (name self)]>
             (<["p_len_diff" := VNum (len_diff self)]>
              (<["p_length" := value_of_num (length self)]> ∅))))
           feature)
      (edge_groups self).

(** Reading an attribute that may not have been created yet. *)
Definition getattr {A : Type} (attr : string) (x : option A) : result A :=
  match x with
  | Some a => Ok a
  | None => Raise (AttributeError attr)
  end.

(** [{**props, **noise_props, **aqi_props}]: on a shared key the later
    dict wins. *)
Definition get_as_geojson_feature (self : t) : result feature :=
  let wgs_coords := flat_map PathEdge.coords_wgs (edges self) in
  let wgs_coords := geom_utils.round_coordinates wgs_coords 6 in
  let feature_d := get_geojson_feature_dict wgs_coords in
  type_value <- propagate (path_type_value (path_type self)) ;;
  len_b <- getattr "length_b" (length_b self) ;;
  let props : gmap string value :=
    <["type" := type_value]>
    (<["id" := VStr (name self)]>
     (<["length" := value_of_num (length self)]>
      (<["length_b" := VNum len_b]>
       (<["len_diff" := VNum (len_diff self)]>
        (<["len_diff_rat" := value_of_num (len_diff_rat self)]>
         (<["cost_coeff" := VNum (cost_coeff self)]>
          (<["missing_aqi" := VBool (missing_aqi self)]>
           (<["missing_noises" := VBool (missing_noises self)]> ∅)))))))) in
  noise_props <- match noise_attrs self with
                 | Some na => propagate (get_noise_props_dict na)
                 | None => Ok ∅
                 end ;;
  aqi_props <- match aqi_attrs self with
               | Some aa => propagate (get_aqi_props_dict aa)
               | None => Ok ∅
               end ;;
  Ok (with_properties (aqi_props ∪ (noise_props ∪ props)) feature_d).

(** A length as [aggregate_path_attrs] assigns it: a float, or the int
    [0] on a path without edges. *)
Definition aggregated_length (n : num) : Prop :=
  (exists f, n = PyFloat f) \/ n = PyInt 0.

(** The paths that [__init__] and the methods other than
    [set_green_path_diff_attrs] lead to. A call of one of these methods
    that raises has assigned nothing, so that only the calls that return
    are steps. *)
Inductive without_diff : t -> Prop :=
  | wd_init orig_node edge_ids name path_type cost_coeff :
      without_diff (init orig_node edge_ids name path_type cost_coeff)
  | wd_set_path_name path_name self :
      without_diff self -> without_diff (set_path_name path_name self)
  | wd_set_path_type new_type self :
      without_diff self -> without_diff (set_path_type new_type self)
  | wd_set_path_edges G self self' :
      without_diff self -> set_path_edges G self = Ok self' ->
      without_diff self'
  | wd_aggregate_path_attrs self self' :
      without_diff self -> aggregate_path_attrs self = Ok self' ->
      without_diff self'
  | wd_set_noise_attrs db_costs self self' :
      without_diff self -> set_noise_attrs db_costs self = Ok self' ->
      without_diff self'
  | wd_set_aqi_attrs self self' :
      without_diff self -> set_aqi_attrs self = Ok self' ->
      without_diff self'
  | wd_aggregate_edge_groups_by_attr aq noise self self' :
      without_diff self ->
      aggregate_edge_groups_by_attr aq noise self = Ok self' ->
      without_diff self'.

(** The property dicts of the summaries of [self] do not define [key]. *)
Definition summaries_leave (key : string) (self : t) : Prop :=
  (forall na d, noise_attrs self = Some na ->
                get_noise_props_dict na = Returned d -> d !! key = None)
  /\ (forall aa d, aqi_attrs self = Some aa ->
                   get_aqi_props_dict aa = Returned d -> d !! key = None).

(** The partitions of a list of edges into runs: groups that are not
    empty, each of one value, neighbours of different values, whose edges
    in order are the list. *)
Definition run_partition (aq : bool) (es : list PathEdge.t)
    (gs : list group) : Prop :=
  concat (map snd gs) = es
  /\ Forall (fun g : group => snd g <> []) gs
  /\ Forall (homogeneous aq) gs
  /\ alternating gs.

(** A list of edges that starts with no edge of value [v]. *)
Definition starts_other (aq : bool) (v : Z) (es : list PathEdge.t) : Prop :=
  match es with
  | [] => True
  | edge :: _ => group_value aq edge <> v
  end.

End Methods.
Arguments t {X}.
End Path.

(** ** A stand-in for the collaborators, to run the methods on examples *)

Module Demo.

#[export] Instance externals : Externals := {|
  Noises := list (Z * float);
  DbCosts := list (Z * float);
  GraphHandler := Z;
  Geometry := list coord;
  PathNoiseAttrs := num;
  PathAqiAttrs := num;
  PathType := string
|}.

(** The edge the demo graph holds under [id]: a segment of length [2.5]
    from [(id, 0)] to [(id + 1, 0)], in air-quality class [id mod 3] and
    decibel band [id mod 2]. A graph is the number of its edges: it holds
    the ids from 0 up to that number. *)
Definition edge_of_id (id : Z) : PathEdge.t :=
  let x := SF2Prim (binary_normalize prec emax id 0 false) in
  {| PathEdge.coords := [(x, 0%float); ((x + 1)%float, 0%float)];
     PathEdge.coords_wgs := [(x, 0%float); ((x + 1)%float, 0%float)];
     PathEdge.length := 2.5%float;
     PathEdge.length_b := 3.5%float;
     PathEdge.noises := Some [(55, 2.5%float)];
     PathEdge.aqi := Some 1.5%float;
     PathEdge.aqi_cl := id mod 3;
     PathEdge.db_range := id mod 2 |}.

#[export] Instance collaborators : Collaborators := {|
  get_path_edges_by_ids G ids :=
    if forallb (fun id => (0 <=? id) && (id <? G)) ids
    then Returned (map edge_of_id ids)
    else Failed "KeyError";
  LineString cs :=
    match cs with
    | [_] => Failed "ValueError"
    | _ => Returned cs
    end;
  create_path_noise_attrs _ _ len :=
    match len with
    | Some l => Returned l
    | None => Failed "TypeError"
    end;
  create_aqi_attrs _ len :=
    match len with
    | Some l => Returned l
    | None => Failed "TypeError"
    end;
  set_noise_diff_attrs mine _ _ := Returned mine;
  set_aqi_diff_attrs mine _ _ := Returned mine;
  get_noise_props_dict na := Returned {[ "nei" := VNum na ]};
  get_aqi_props_dict aa := Returned {[ "aqc" := VNum aa ]};
  path_type_value pt := Returned (VStr pt)
|}.

(** An edge with chosen lengths, missing markers and classes. *)
Definition edge (len len_b : float) (noises : option Noises)
    (aqi : option float) (aqi_cl db_range : Z) : PathEdge.t :=
  {| PathEdge.coords := [(0%float, 0%float); (1%float, 0%float)];
     PathEdge.coords_wgs := [(0%float, 0%float); (1%float, 0%float)];
     PathEdge.length := len;
     PathEdge.length_b := len_b;
     PathEdge.noises := noises;
     PathEdge.aqi := aqi;
     PathEdge.aqi_cl := aqi_cl;
     PathEdge.db_range := db_range |}.

(** A path as constructed, with [edges] as its resolved edges. *)
Definition path_of (edges : list PathEdge.t) : Path.t :=
  Path.with_edges edges (Path.init 0 [] "p" "clean" Path.default_cost_coeff).

(** Three edges whose air-quality classes and decibel bands are 1, 2, 1;
    the lengths are [2^-8] and [2^-7], the second edge has no noise data. *)
Definition e0 : PathEdge.t :=
  edge 0x1p-8 0x1p-8 (Some [(55, 0x1p-8%float)]) (Some 1.5%float) 1 1.
Definition e1 : PathEdge.t :=
  edge 0x1p-8 0x1p-7 None (Some 2.5%float) 2 2.
Definition e2 : PathEdge.t :=
  edge 0x1p-7 0x1p-7 (Some [(60, 0x1p-7%float)]) (Some 1.5%float) 1 1.

Definition three_edges : Path.t := path_of [e0; e1; e2].
Definition no_edges : Path.t := path_of [].

(** [three_edges] after [aggregate_path_attrs]. *)
Definition aggregated : Path.t :=
  Eval vm_compute in
    match Path.aggregate_path_attrs three_edges with
    | Ok p => p
    | Raise _ => three_edges
    end.

Definition run (r : result Path.t) : Path.t :=
  match r with
  | Ok p => p
  | Raise _ => no_edges
  end.

(** The demo graph: the ids 0 to 4. *)
Definition G : GraphHandler := 5.

(** Two routes over the demo graph, with their edges resolved and their
    attributes aggregated: [green] of length 7.5 with its two summaries,
    built call by call, and [shortest] of length 5.0; and [nowhere], a
    route without edges, of length 0. *)
Definition green0 : Path.t :=
  Path.init 1 [0; 1; 2] "green" "clean" Path.default_cost_coeff.
Definition green1 : Path.t :=
  Eval vm_compute in run (Path.set_path_edges G green0).
Definition green2 : Path.t :=
  Eval vm_compute in run (Path.aggregate_path_attrs green1).
Definition no_costs : DbCosts := [].
Definition green3 : Path.t :=
  Eval vm_compute in run (Path.set_noise_attrs no_costs green2).
Definition green : Path.t :=
  Eval vm_compute in run (Path.set_aqi_attrs green3).

Definition shortest : Path.t :=
  Eval vm_compute in
    run (p <- Path.set_path_edges G
                (Path.init 1 [3; 4] "short" "short" Path.default_cost_coeff) ;;
         Path.aggregate_path_attrs p).

Definition nowhere : Path.t :=
  Eval vm_compute in run (Path.aggregate_path_attrs no_edges).

(** [three_edges] after it has been grouped by air-quality class. *)
Definition grouped : Path.t :=
  Eval vm_compute in
    run (Path.aggregate_edge_groups_by_attr true false three_edges).

(** Two edges of air-quality class 1, as constructed and resolved. *)
Definition same_class : Path.t := path_of [e0; e2].

(** The feature of [green]. *)
Definition green_feature : feature :=
  Eval vm_compute in
    match Path.get_as_geojson_feature green with
    | Ok f => f
    | Raise _ => Path.get_geojson_feature_dict []
    end.

(** An edge with one coordinate only, which the geometry stand-in rejects
    as a line. *)
Definition edge_no_coords : PathEdge.t :=
  {| PathEdge.coords := [(0%float, 0%float)];
     PathEdge.coords_wgs := [(0%float, 0%float)];
     PathEdge.length := 0%float;
     PathEdge.length_b := 0%float;
     PathEdge.noises := None;
     PathEdge.aqi := None;
     PathEdge.aqi_cl := 0;
     PathEdge.db_range := 0 |}.

End Demo.

(** ** utils/geometry.py: the functions on points, lines and projections

    The geometry library (shapely) and the projection library (pyproj)
    are parameters: their types, and their operations, each answering a
    value or failing. *)

Module geometry.

(** The key of a failed dict lookup: a string, or a pair of EPSG codes. *)
Inductive key : Type :=
  | KStr (s : string)
  | KPair (geom_epsg to_epsg : Z).

Inductive error : Type :=
  | KeyError (k : key)
  | ValueError (msg : string)
  | IndexError
  | Propagated (origin : string).

Inductive outcome (A : Type) : Type :=
  | Done (a : A)
  | Error (e : error).
Arguments Done {A} a.
Arguments Error {A} e.

Definition bind {A B : Type} (r : outcome A) (k : A -> outcome B)
    : outcome B :=
  match r with
  | Done a => k a
  | Error e => Error e
  end.

Notation "x <~ r ;; k" := (bind r (fun x => k))
  (at level 100, r at next level, right associativity).

Definition lift {A : Type} (r : answer A) : outcome A :=
  match r with
  | Returned a => Done a
  | Failed o => Error (Propagated o)
  end.

Class Library : Type := {
  Point : Type;
  Line : Type;                 (* a LineString *)
  Shape : Type;                (* any geometry *)
  Transformer : Type;
  point_x : Point -> answer float;                  (* geom.x *)
  point_y : Point -> answer float;                  (* geom.y *)
  Point_of : list float -> answer Point;            (* Point(coords) *)
  first_coords : Line -> answer (list float);       (* line.coords[0] *)
  distance : Point -> Point -> answer float;        (* a.distance(b) *)
  snap : Line -> Point -> float -> answer Line;
  split : Line -> Point -> answer (list Line);
  from_crs : Z -> Z -> Transformer;     (* Transformer.from_crs, always_xy *)
  transform : Transformer -> Shape -> answer Shape
}.

Section Functions.
Context {L : Library}.

(** [d[k]] on a dict with string keys. *)
Definition getitem {A : Type} (d : gmap string A) (k : string) : outcome A :=
  match d !! k with
  | Some a => Done a
  | None => Error (KeyError (KStr k))
  end.


Definition get_xy_from_geom (geom : Point) : outcome (gmap string float) :=
  x <~ lift (point_x geom) ;;
  y <~ lift (point_y geom) ;;
  Done (<["x" := x]> (<["y" := y]> ∅)).

Definition get_coords_from_lat_lon (latLon : gmap string float)
    : outcome (list float) :=
  lon <~ getitem latLon "lon" ;;
  lat <~ getitem latLon "lat" ;;
  Done [lon; lat].

Definition get_point_from_lat_lon (latLon : gmap string float)
    : outcome Point :=
  coords <~ get_coords_from_lat_lon latLon ;;
  lift (Point_of coords).

(** The dict [__projections], built when the module is loaded. *)
Definition projections : gmap (Z * Z) Transformer :=
  <[(4326, 3879) := from_crs 4326 3879]>
  (<[(3879, 4326) := from_crs 3879 4326]> ∅).

Definition project_geom (geom : Shape) (geom_epsg to_epsg : Z)
    : outcome Shape :=
  match projections !! (geom_epsg, to_epsg) with
  | Some project => lift (transform project geom)
  | None => Error (KeyError (KPair geom_epsg to_epsg))
  end.

(** The defaults of [project_geom]: from EPSG 4326 to EPSG 3879. *)
Definition project_geom_default (geom : Shape) : outcome Shape :=
  project_geom geom 4326 3879.

Definition get_split_lines (line : Line) (point : Point) (tolerance : float)
    : outcome (list Line) :=
  snap_line <~ lift (snap line point tolerance) ;;
  split_lines <~ lift (split snap_line point) ;;
  if Nat.eqb (List.length split_lines) 1 then
    Error (ValueError "Split lines to only one line instead of 2 - split point was probably not on the line")
  else Done split_lines.

(** The default [tolerance = 0.01]. *)
Definition default_tolerance : float := 0x1.47ae147ae147bp-7%float.


End Functions.

End geometry.

(** ** A stand-in for the geometry and projection libraries *)

Module Plane.
Import geometry.

(** A stand-in for the two libraries: points of the plane, a line as the
    list of its vertices, which [split] cuts at the inner vertex equal to
    the point (the vertex ends the first piece and starts the second),
    [snap] changing nothing; the distance is the sum of the coordinate
    differences; a transformer is its pair of codes, and shifts nothing. *)
Definition same_point (a b : float * float) : bool :=
  (fst a =? fst b)%float && (snd a =? snd b)%float.

(** The pieces of [rest] after the vertices [seen] (last one first): cut
    at the first inner vertex equal to [pt]. *)
Fixpoint cut_from (seen rest : list (float * float)) (pt : float * float)
    : list (list (float * float)) :=
  match rest with
  | [] => [rev seen]
  | [w] => [rev (w :: seen)]
  | w :: rest' =>
      if same_point w pt then [rev (w :: seen); w :: rest']
      else cut_from (w :: seen) rest' pt
  end.

Definition cut (line : list (float * float)) (pt : float * float)
    : list (list (float * float)) :=
  match line with
  | [] => []
  | v :: rest => cut_from [v] rest pt
  end.

#[export] Instance plane : Library := {|
  Point := float * float;
  Line := list (float * float);
  Shape := list (float * float);
  Transformer := Z * Z;
  point_x pt := Returned (fst pt);
  point_y pt := Returned (snd pt);
  Point_of cs :=
    match cs with
    | [x; y] => Returned (x, y)
    | _ => Failed "TypeError"
    end;
  first_coords line :=
    match line with
    | v :: _ => Returned [fst v; snd v]
    | [] => Failed "IndexError"
    end;
  distance a b :=
    Returned (abs (fst a - fst b) + abs (snd a - snd b))%float;
  snap line _ _ := Returned line;
  split line pt := Returned (cut line pt);
  from_crs a b := (a, b);
  transform _ g := Returned g
|}.

(** A line along the x axis through (0,0), (1,0), (2,0), its two ends and
    its middle vertex. *)
Definition west : Point := (0%float, 0%float).
Definition middle : Point := (1%float, 0%float).
Definition east : Point := (2%float, 0%float).
Definition axis : Line := [west; middle; east].
Definition shape : Shape := [west; middle; east].

End Plane.

(** * Properties *)

(** ** Outcomes *)

Lemma bind_Ok_inv {A B : Type} (r : result A) (k : A -> result B) (b : B) :
  bind r k = Ok b -> exists a, r = Ok a /\ k a = Ok b.
Proof. destruct r as [a|e]; simpl; intros H; [eauto | discriminate]. Qed.

Lemma propagate_Ok_inv {A : Type} (r : answer A) (a : A) :
  propagate r = Ok a -> r = Returned a.
Proof. destruct r; simpl; congruence. Qed.

Lemma propagate_Raise_inv {A : Type} (r : answer A) (e : exc) :
  propagate r = Raise e -> exists o, e = Propagated o.
Proof. destruct r; simpl; intros H; [discriminate | inversion H; eauto]. Qed.

(** Splits a hypothesis [x <- r ;; k = Ok b] into [r = Ok x] and the rest. *)
Ltac bind_inv H :=
  let a := fresh "a" in
  let Ha := fresh "H" a in
  apply bind_Ok_inv in H; destruct H as (a & Ha & H).

(** ** The edge-group segmentation *)

Section Segmentation.
Context {X : Externals}.
Implicit Types (p : Path.t) (es cur : list PathEdge.t) (gs : list Path.group).

(** The loop of the method appends what [runs] lists, the last append of
    the method included. *)
Lemma scan_runs (aq : bool) es (st : Path.scan) :
  let st' := fold_left (Path.scan_edge aq) es st in
  Path.groups st' ++ [(Path.cur_group_id st', Path.cur_group st')]
  = Path.groups st ++ Path.runs aq (Path.cur_group_id st) (Path.cur_group st) es.
Proof.
  revert st. induction es as [|e es IH]; intros st; simpl; [reflexivity|].
  rewrite IH. unfold Path.scan_edge.
  destruct (Path.group_value aq e =? Path.cur_group_id st); simpl; [reflexivity|].
  destruct (Path.truthy (Path.cur_group st)); simpl; [|reflexivity].
  now rewrite <- app_assoc.
Qed.

(** The selectors are accepted exactly when they differ. *)
Lemma selectors_rejected (aq noise : bool) :
  Bool.eqb aq noise || (negb aq && negb noise) = Bool.eqb aq noise.
Proof. destruct aq, noise; reflexivity. Qed.

Lemma aggregate_edge_groups_eq (aq noise : bool) p :
  aq <> noise ->
  Path.aggregate_edge_groups_by_attr aq noise p
  = Ok (Path.with_edge_groups
          (Path.edge_groups p ++ Path.runs aq 0 [] (Path.edges p)) p).
Proof.
  intros Hsel. unfold Path.aggregate_edge_groups_by_attr.
  rewrite selectors_rejected.
  destruct (Bool.eqb aq noise) eqn:E.
  - apply Bool.eqb_prop in E. contradiction.
  - f_equal. f_equal. apply (scan_runs aq (Path.edges p)).
Qed.

Lemma appends_runs (aq noise : bool) p gs :
  Path.appends aq noise p gs <->
  aq <> noise /\ gs = Path.runs aq 0 [] (Path.edges p).
Proof.
  split.
  - intros (p' & Hcall & Hgs).
    assert (Hsel : aq <> noise).
    { intros ->. unfold Path.aggregate_edge_groups_by_attr in Hcall.
      rewrite selectors_rejected, Bool.eqb_reflx in Hcall. discriminate. }
    split; [exact Hsel|].
    rewrite (aggregate_edge_groups_eq _ _ _ Hsel) in Hcall.
    inversion Hcall; subst p'. simpl in Hgs.
    now apply app_inv_head in Hgs.
  - intros [Hsel ->]. eexists. split.
    + apply (aggregate_edge_groups_eq _ _ _ Hsel).
    + reflexivity.
Qed.

(** A call has one output. *)
Lemma appends_functional (aq noise : bool) p gs gs' :
  Path.appends aq noise p gs -> Path.appends aq noise p gs' -> gs = gs'.
Proof.
  intros H H'. apply appends_runs in H as [_ ->], H' as [_ ->]. reflexivity.
Qed.

(** On a path whose [edge_groups] is empty, as [__init__] leaves it, the
    output of the call is the whole of [edge_groups] after it. *)
Lemma appends_fresh (aq noise : bool) p gs :
  Path.edge_groups p = [] ->
  Path.appends aq noise p gs <->
  exists p', Path.aggregate_edge_groups_by_attr aq noise p = Ok p'
             /\ Path.edge_groups p' = gs.
Proof.
  intros Hfresh. unfold Path.appends. rewrite Hfresh. reflexivity.
Qed.

(** *** What [runs] lists *)

Lemma truthy_true {A : Type} (l : list A) : Path.truthy l = true <-> l <> [].
Proof. destruct l; simpl; split; congruence. Qed.

Lemma truthy_false {A : Type} (l : list A) : Path.truthy l = false <-> l = [].
Proof. destruct l; simpl; split; congruence. Qed.

(** The edges of the groups, in order, are the buffer followed by the
    edges still to scan. *)
Lemma runs_concat (aq : bool) es : forall id cur,
  concat (map snd (Path.runs aq id cur es)) = cur ++ es.
Proof.
  induction es as [|e es IH]; intros id cur; simpl.
  - now rewrite app_nil_r.
  - destruct (Path.group_value aq e =? id).
    + rewrite IH. now rewrite <- app_assoc.
    + rewrite map_app, concat_app, IH.
      destruct cur; simpl; [reflexivity|].
      now rewrite app_nil_r.
Qed.

Lemma runs_homogeneous (aq : bool) es : forall id cur,
  Forall (fun e => Path.group_value aq e = id) cur ->
  Forall (Path.homogeneous aq) (Path.runs aq id cur es).
Proof.
  induction es as [|e es IH]; intros id cur Hcur; simpl.
  - now constructor.
  - destruct (Path.group_value aq e =? id) eqn:E.
    + apply IH. apply Forall_app. split; [exact Hcur|].
      constructor; [now apply Z.eqb_eq | constructor].
    + apply Forall_app. split.
      * destruct (Path.truthy cur); constructor; [exact Hcur | constructor].
      * apply IH. now constructor.
Qed.

(** With a buffer that is not empty, the first group listed is the one of
    the buffer. *)
Lemma runs_head (aq : bool) es : forall id cur,
  cur <> [] -> exists c rest, Path.runs aq id cur es = (id, c) :: rest.
Proof.
  induction es as [|e es IH]; intros id cur Hcur; simpl.
  - eauto.
  - destruct (Path.group_value aq e =? id).
    + apply IH. now destruct cur.
    + apply truthy_true in Hcur. rewrite Hcur. simpl. eauto.
Qed.

Lemma alternating_cons (g h : Path.group) gs :
  fst g <> fst h -> Path.alternating (h :: gs) -> Path.alternating (g :: h :: gs).
Proof.
  intros Hne Halt [|i] a b Ha Hb; simpl in *.
  - congruence.
  - exact (Halt i a b Ha Hb).
Qed.

Lemma runs_alternating (aq : bool) es : forall id cur,
  Path.alternating (Path.runs aq id cur es).
Proof.
  induction es as [|e es IH]; intros id cur; simpl.
  - intros [|i] g h Hg Hh; simpl in *; discriminate.
  - destruct (Path.group_value aq e =? id) eqn:E; [apply IH|].
    destruct (Path.truthy cur); simpl; [|apply IH].
    destruct (runs_head aq es (Path.group_value aq e) [e]) as (c & rest & Hr);
      [discriminate|].
    specialize (IH (Path.group_value aq e) [e]). rewrite Hr in IH |- *.
    apply alternating_cons; [|exact IH].
    simpl. apply Z.eqb_neq in E. congruence.
Qed.

(** Only the scan of no edge at all, from an empty buffer, lists an empty
    group. *)
Lemma runs_nonempty (aq : bool) es : forall id cur,
  cur <> [] \/ es <> [] ->
  Forall (fun g : Path.group => snd g <> []) (Path.runs aq id cur es).
Proof.
  induction es as [|e es IH]; intros id cur Hne; simpl.
  - constructor; [|constructor]. simpl. now destruct Hne.
  - destruct (Path.group_value aq e =? id).
    + apply IH. left. now destruct cur.
    + apply Forall_app. split.
      * destruct (Path.truthy cur) eqn:T; constructor; [|constructor].
        simpl. now apply truthy_true.
      * apply IH. now left.
Qed.

Lemma runs_not_nil (aq : bool) es id cur : Path.runs aq id cur es <> [].
Proof.
  intros H. pose proof (runs_concat aq es id cur) as Hc.
  rewrite H in Hc. simpl in Hc. symmetry in Hc.
  apply app_eq_nil in Hc as [-> ->]. discriminate H.
Qed.

(** *** The properties of the groups one call appends *)

(** C1. For every path and either grouping dimension the call returns,
    and the edge lists of the groups it has appended, concatenated in
    order, are exactly the resolved edge list of the path. *)
Theorem edge_groups_concat (aq noise : bool) p :
  aq <> noise ->
  exists gs, Path.appends aq noise p gs
             /\ concat (map snd gs) = Path.edges p.
Proof.
  intros Hsel. exists (Path.runs aq 0 [] (Path.edges p)). split.
  - now apply appends_runs.
  - apply runs_concat.
Qed.

(** C2. For every path and either grouping dimension, every edge of an
    appended group has the discretized value ([aqi_cl] or [db_range]) of
    its group, and no two consecutive appended groups have the same
    value. *)
Theorem edge_groups_homogeneous_maximal (aq noise : bool) p :
  aq <> noise ->
  exists gs, Path.appends aq noise p gs
             /\ Forall (Path.homogeneous aq) gs
             /\ Path.alternating gs.
Proof.
  intros Hsel. exists (Path.runs aq 0 [] (Path.edges p)). split; [|split].
  - now apply appends_runs.
  - apply runs_homogeneous. constructor.
  - apply runs_alternating.
Qed.

(** On a path that has edges, every appended group has an edge. *)
Lemma edge_groups_nonempty (aq noise : bool) p gs :
  Path.edges p <> [] ->
  Path.appends aq noise p gs ->
  Forall (fun g : Path.group => snd g <> []) gs.
Proof.
  intros Hne Happ. apply appends_runs in Happ as [_ ->].
  apply runs_nonempty. now right.
Qed.

(** C3 (what the code does where the claim fails). On a path with no
    edge the call appends one group, of value 0 and with no edge: the
    last append of the method is not guarded as the one in its loop is. *)
Theorem edge_groups_of_no_edge (aq noise : bool) p :
  aq <> noise ->
  Path.edges p = [] ->
  Path.appends aq noise p [(0, [])].
Proof.
  intros Hsel Hes. apply appends_runs. split; [exact Hsel|].
  now rewrite Hes.
Qed.

(** C4. The call raises [ValueError] exactly when its two selectors are
    both true or both false, and returns when exactly one is true. *)
Theorem selectors_value_error (aq noise : bool) p :
  ((exists msg,
       Path.aggregate_edge_groups_by_attr aq noise p = Raise (ValueError msg))
   <-> (aq = true /\ noise = true) \/ (aq = false /\ noise = false))
  /\ ((aq = true /\ noise = false) \/ (aq = false /\ noise = true) ->
      exists p', Path.aggregate_edge_groups_by_attr aq noise p = Ok p').
Proof.
  split; [split|].
  - intros [msg Hraise]. destruct aq, noise; auto;
      rewrite aggregate_edge_groups_eq in Hraise by discriminate;
      discriminate.
  - intros [[-> ->] | [-> ->]]; eexists; reflexivity.
  - intros [[-> ->] | [-> ->]];
      rewrite aggregate_edge_groups_eq by discriminate; eauto.
Qed.

(** C8. Three edges of values 1, 2, 1 in the chosen dimension give the
    three groups [(1,[e0]); (2,[e1]); (1,[e2])]: the two edges of value 1
    are not merged. *)
Theorem alternating_values_three_groups (aq noise : bool) p
    (e0 e1 e2 : PathEdge.t) :
  aq <> noise ->
  Path.edges p = [e0; e1; e2] ->
  Path.group_value aq e0 = 1 ->
  Path.group_value aq e1 = 2 ->
  Path.group_value aq e2 = 1 ->
  Path.appends aq noise p [(1, [e0]); (2, [e1]); (1, [e2])].
Proof.
  intros Hsel Hes H0 H1 H2. apply appends_runs. split; [exact Hsel|].
  rewrite Hes. simpl. now rewrite H0, H1, H2.
Qed.

(** C9. The call appends to [edge_groups] and never clears it: a second
    call with the same selectors appends the groups of the first call once
    more. On a path whose [edge_groups] was empty, as [__init__] leaves it,
    the list after the second call is the list after the first call
    followed by itself; in every case the second call changes the list. *)
Theorem second_call_appends_again (aq noise : bool) p p1 :
  Path.aggregate_edge_groups_by_attr aq noise p = Ok p1 ->
  exists gs p2,
    Path.edge_groups p1 = Path.edge_groups p ++ gs
    /\ Path.aggregate_edge_groups_by_attr aq noise p1 = Ok p2
    /\ Path.edge_groups p2 = Path.edge_groups p ++ gs ++ gs
    /\ (Path.edge_groups p = [] ->
        Path.edge_groups p2 = Path.edge_groups p1 ++ Path.edge_groups p1)
    /\ Path.edge_groups p2 <> Path.edge_groups p1.
Proof.
  intros Hcall.
  assert (Hsel : aq <> noise).
  { intros ->. unfold Path.aggregate_edge_groups_by_attr in Hcall.
    rewrite selectors_rejected, Bool.eqb_reflx in Hcall. discriminate. }
  rewrite (aggregate_edge_groups_eq _ _ _ Hsel) in Hcall.
  inversion Hcall; subst p1; clear Hcall.
  set (gs := Path.runs aq 0 [] (Path.edges p)).
  exists gs. eexists. split; [reflexivity|]. split.
  { apply (aggregate_edge_groups_eq _ _ _ Hsel). }
  simpl. fold gs. split; [now rewrite <- app_assoc|]. split.
  - intros ->. reflexivity.
  - intros Heq. rewrite <- (app_nil_r (Path.edge_groups p ++ gs)) in Heq at 2.
    apply app_inv_head in Heq. now apply (runs_not_nil aq) in Heq.
Qed.

End Segmentation.

(** ** The aggregation of the path attributes *)

Section Aggregation.
Context {X : Externals} {C : Collaborators}.
Implicit Types (p : Path.t) (es : list PathEdge.t).

(** Adding floats to a float never raises. *)
Lemma py_sum_from_float {A : Type} (f : A -> float) (l : list A) (acc : float) :
  fold_left (fun r x => a <- r ;; py_add a x) (map (fun x => PyFloat (f x)) l)
    (Ok (PyFloat acc))
  = Ok (PyFloat (fold_left (fun s x => (s + f x)%float) l acc)).
Proof.
  revert acc. induction l as [|x l IH]; intros acc; simpl; [reflexivity|].
  apply IH.
Qed.

(** The [sum] of floats: the int 0 of no item, else the floats added from
    left to right to [0.0]. *)
Lemma py_sum_floats {A : Type} (f : A -> float) (l : list A) :
  py_sum (map (fun x => PyFloat (f x)) l)
  = Ok (match l with
        | [] => PyInt 0
        | x :: l' => PyFloat (fold_left (fun s y => (s + f y)%float) l'
                                (0 + f x)%float)
        end).
Proof.
  destruct l as [|x l]; [reflexivity|].
  unfold py_sum. simpl. apply py_sum_from_float.
Qed.

Lemma None_in_spec {A : Type} (items : list (option A)) :
  Path.None_in items = true <-> None ∈ items.
Proof.
  unfold Path.None_in. rewrite existsb_exists. split.
  - intros (x & Hin & Hx). destruct x; [discriminate|].
    now apply list_elem_of_In.
  - intros Hin. exists None. split; [now apply list_elem_of_In | reflexivity].
Qed.

Lemma None_in_map {A B : Type} (f : A -> option B) (l : list A) :
  Path.None_in (map f l) = true <-> exists x, x ∈ l /\ f x = None.
Proof.
  rewrite None_in_spec. change (map f l) with (f <$> l).
  rewrite list_elem_of_fmap. split.
  - intros (x & Hx & Hin). eauto.
  - intros (x & Hin & Hx). eauto.
Qed.

(** The call returns exactly when the geometry library accepts the
    concatenated coordinates, and then assigns the five attributes. *)
Lemma aggregate_path_attrs_Ok p p' :
  Path.aggregate_path_attrs p = Ok p' <->
  exists geom total total_b,
    LineString (flat_map PathEdge.coords (Path.edges p)) = Returned geom
    /\ py_sum (map (fun e => PyFloat (PathEdge.length e)) (Path.edges p))
       = Ok total
    /\ py_sum (map (fun e => PyFloat (PathEdge.length_b e)) (Path.edges p))
       = Ok total_b
    /\ p' = {| Path.orig_node := Path.orig_node p;
               Path.edge_ids := Path.edge_ids p;
               Path.edges := Path.edges p;
               Path.edge_groups := Path.edge_groups p;
               Path.name := Path.name p;
               Path.path_type := Path.path_type p;
               Path.cost_coeff := Path.cost_coeff p;
               Path.geometry := Some geom;
               Path.length := Some (py_round total 2);
               Path.length_b := Some (py_round total_b 2);
               Path.len_diff := Path.len_diff p;
               Path.len_diff_rat := Path.len_diff_rat p;
               Path.missing_aqi :=
                 Path.None_in (map PathEdge.aqi (Path.edges p));
               Path.missing_noises :=
                 Path.None_in (map PathEdge.noises (Path.edges p));
               Path.noise_attrs := Path.noise_attrs p;
               Path.aqi_attrs := Path.aqi_attrs p |}.
Proof.
  unfold Path.aggregate_path_attrs. split.
  - intros H. bind_inv H. bind_inv H. bind_inv H.
    apply propagate_Ok_inv in Ha. inversion H; subst p'; clear H.
    exists a, a0, a1. repeat split; try assumption.
    now destruct (Path.None_in (map PathEdge.aqi _)),
                 (Path.None_in (map PathEdge.noises _)).
  - intros (geom & total & total_b & Hg & Ht & Hb & ->).
    rewrite Hg, Ht, Hb. simpl.
    now destruct (Path.None_in (map PathEdge.aqi _)),
                 (Path.None_in (map PathEdge.noises _)).
Qed.

Lemma aggregate_path_attrs_returns p :
  returns (Path.aggregate_path_attrs p) <->
  exists geom,
    LineString (flat_map PathEdge.coords (Path.edges p)) = Returned geom.
Proof.
  split.
  - intros [p' H]. apply aggregate_path_attrs_Ok in H.
    destruct H as (geom & _ & _ & Hg & _). eauto.
  - intros [geom Hg]. eexists. apply aggregate_path_attrs_Ok.
    exists geom. do 2 eexists.
    split; [exact Hg|]. split; [apply py_sum_floats|].
    split; [apply py_sum_floats | reflexivity].
Qed.

(** C5. After [aggregate_path_attrs], [missing_noises] is true exactly
    when some edge has [None] as its noise value, and then
    [set_noise_attrs] returns without changing the path: [noise_attrs] is
    what it was before the two calls, so [None] when it was unset. The same
    holds for [missing_aqi] and [set_aqi_attrs]. *)
Theorem missing_data_propagation p p' :
  Path.aggregate_path_attrs p = Ok p' ->
  (Path.missing_noises p' = true
   <-> exists e, e ∈ Path.edges p' /\ PathEdge.noises e = None)
  /\ (Path.missing_noises p' = true ->
      forall db_costs,
        Path.set_noise_attrs db_costs p' = Ok p'
        /\ Path.noise_attrs p' = Path.noise_attrs p
        /\ (Path.noise_attrs p = None -> Path.noise_attrs p' = None))
  /\ (Path.missing_aqi p' = true
      <-> exists e, e ∈ Path.edges p' /\ PathEdge.aqi e = None)
  /\ (Path.missing_aqi p' = true ->
      Path.set_aqi_attrs p' = Ok p'
      /\ Path.aqi_attrs p' = Path.aqi_attrs p
      /\ (Path.aqi_attrs p = None -> Path.aqi_attrs p' = None)).
Proof.
  intros H. apply aggregate_path_attrs_Ok in H.
  destruct H as (geom & total & total_b & _ & _ & _ & ->). simpl.
  split; [apply None_in_map|]. split.
  { intros Hm db_costs. unfold Path.set_noise_attrs. simpl. rewrite Hm.
    simpl. auto. }
  split; [apply None_in_map|].
  intros Hm. unfold Path.set_aqi_attrs. simpl. rewrite Hm. simpl. auto.
Qed.

(** C7. [aggregate_path_attrs] sets [length] and [length_b] to the sum of
    the edges' lengths rounded to 2 decimals, the rounding being applied
    to the sum; this is not the sum of the rounded lengths, which differs
    from it on the lengths [2^-8; 2^-8; 2^-7]. *)
Theorem length_aggregation p p' :
  Path.aggregate_path_attrs p = Ok p' ->
  exists len len_b,
    Path.length p' = Some len
    /\ Path.length_b p' = Some len_b
    /\ sum_then_round (map PathEdge.length (Path.edges p)) 2 = Ok len
    /\ sum_then_round (map PathEdge.length_b (Path.edges p)) 2 = Ok len_b
    /\ sum_then_round [0x1p-8; 0x1p-8; 0x1p-7]%float 2
       <> round_then_sum [0x1p-8; 0x1p-8; 0x1p-7]%float 2.
Proof.
  intros H. apply aggregate_path_attrs_Ok in H.
  destruct H as (geom & total & total_b & _ & Ht & Hb & ->). simpl.
  exists (py_round total 2), (py_round total_b 2).
  unfold sum_then_round. rewrite !map_map, Ht, Hb. simpl.
  split; [reflexivity|]. split; [reflexivity|].
  split; [reflexivity|]. split; [reflexivity|].
  vm_compute. discriminate.
Qed.

End Aggregation.

(** ** The length differences to the shortest path *)

Section Differences.
Context {X : Externals} {C : Collaborators}.
Implicit Types (p sp : Path.t).

(** A float equal to zero is one of the two zeros. *)
Lemma float_eqb_zero (f : float) :
  (f =? 0)%float = true <-> exists s, Prim2SF f = S754_zero s.
Proof.
  rewrite FloatAxioms.eqb_spec. change (Prim2SF 0) with (S754_zero false).
  destruct (Prim2SF f) as [s|s| |s m e]; unfold SFeqb; simpl.
  - split; eauto.
  - split; [destruct s; discriminate | intros [? ?]; discriminate].
  - split; [discriminate | intros [? ?]; discriminate].
  - split; [destruct s; discriminate | intros [? ?]; discriminate].
Qed.

(** A number equal to zero is not greater than zero, and conversely. *)
Lemma is_zero_not_gt (b : num) :
  is_zero b = true -> py_gt b (PyInt 0) = false.
Proof.
  destruct b as [z|f]; simpl.
  - intros H. apply Z.eqb_eq in H. subst z. reflexivity.
  - intros H. apply float_eqb_zero in H as [s Hs].
    unfold float_cmp_int. now rewrite Hs.
Qed.

Lemma gt_not_is_zero (b : num) :
  py_gt b (PyInt 0) = true -> is_zero b = false.
Proof.
  intros H. destruct (is_zero b) eqn:E; [|reflexivity].
  apply is_zero_not_gt in E. congruence.
Qed.

Lemma operand_Ok_inv (x : option num) (n : num) :
  Path.operand x = Ok n -> x = Some n.
Proof. destruct x; simpl; congruence. Qed.

(** C6. [set_green_path_diff_attrs] sets [len_diff] to
    [round(self.length - shortest_path.length, 1)]; when the length of the
    shortest path is greater than 0 it sets [len_diff_rat] to
    [round(len_diff / shortest_path.length * 100, 1)], and when that length
    is 0 it sets [len_diff_rat] to the int 0 and raises no
    [ZeroDivisionError]; on lengths as [aggregate_path_attrs] assigns them
    the call returns whenever the diff methods of the summaries do. *)
Theorem len_diff_attrs sp p :
  (forall p', Path.set_green_path_diff_attrs sp p = Ok p' ->
     exists a b d,
       Path.length p = Some a /\ Path.length sp = Some b
       /\ py_sub a b = Ok d
       /\ Path.len_diff p' = py_round d 1
       /\ (py_gt b (PyInt 0) = true ->
           exists q m,
             py_truediv (Path.len_diff p') b = Ok q
             /\ py_mul q (PyInt 100) = Ok m
             /\ Path.len_diff_rat p' = Some (py_round m 1))
       /\ (is_zero b = true -> Path.len_diff_rat p' = Some (PyInt 0)))
  /\ (forall b, Path.length sp = Some b -> is_zero b = true ->
        Path.set_green_path_diff_attrs sp p <> Raise ZeroDivisionError)
  /\ (forall a b,
        Path.length p = Some a -> Path.length sp = Some b ->
        Path.aggregated_length a -> Path.aggregated_length b ->
        (forall mine theirs d,
            exists r, set_noise_diff_attrs mine theirs d = Returned r) ->
        (forall mine theirs d,
            exists r, set_aqi_diff_attrs mine theirs d = Returned r) ->
        returns (Path.set_green_path_diff_attrs sp p)).
Proof.
  split; [|split].
  - intros p' H. unfold Path.set_green_path_diff_attrs in H.
    bind_inv H. bind_inv H. bind_inv H. bind_inv H. bind_inv H. bind_inv H.
    apply operand_Ok_inv in Ha, Ha0.
    inversion H; subst p'; clear H. simpl.
    exists a, a0, a1. repeat (split; [assumption || reflexivity|]). split.
    + intros Hgt. rewrite Hgt in Ha2.
      bind_inv Ha2. bind_inv Ha2. inversion Ha2; subst a2. eauto.
    + intros Hz. rewrite (is_zero_not_gt _ Hz) in Ha2. congruence.
  - intros b Hb Hz. unfold Path.set_green_path_diff_attrs.
    rewrite Hb. destruct (Path.length p) as [a|]; simpl; [|discriminate].
    destruct (py_sub a b) as [d|e] eqn:Ed; simpl.
    + rewrite (is_zero_not_gt _ Hz). simpl.
      destruct (Path.noise_attrs p) as [mine|],
               (Path.noise_attrs sp) as [theirs|]; simpl;
        try (destruct (set_noise_diff_attrs mine theirs _); simpl;
             [|discriminate]);
        destruct (Path.aqi_attrs p) as [mine'|],
                 (Path.aqi_attrs sp) as [theirs'|]; simpl;
        try (destruct (set_aqi_diff_attrs mine' theirs' _); simpl);
        discriminate.
    + clear Hb. destruct a as [x|x], b as [y|y]; simpl in Ed;
        try discriminate.
      * unfold py_sub, arith in Ed.
        destruct (float_of_int x) eqn:F; simpl in Ed; [discriminate|].
        inversion Ed; subst e. unfold float_of_int, float_of_SF in F.
        destruct (binary_normalize _ _ _ _ _); congruence.
      * unfold py_sub, arith in Ed.
        destruct (float_of_int y) eqn:F; simpl in Ed; [discriminate|].
        inversion Ed; subst e. unfold float_of_int, float_of_SF in F.
        destruct (binary_normalize _ _ _ _ _); congruence.
  - intros a b Ha Hb Hla Hlb Hnoise Haqi.
    unfold returns, Path.set_green_path_diff_attrs. rewrite Ha, Hb. simpl.
    assert (Hrat : forall d, py_sub a b = Ok d ->
              exists r,
                (if py_gt b (PyInt 0)
                 then q <- py_truediv (py_round d 1) b ;;
                      m <- py_mul q (PyInt 100) ;; Ok (py_round m 1)
                 else Ok (PyInt 0)) = Ok r).
    { intros d Hd. destruct (py_gt b (PyInt 0)) eqn:Hgt; [|eauto].
      apply gt_not_is_zero in Hgt.
      destruct Hlb as [[y ->] | ->]; [|discriminate].
      simpl in Hgt.
      assert (exists x, d = PyFloat x) as [x ->].
      { destruct Hla as [[x ->] | ->]; simpl in Hd; inversion Hd; eauto. }
      simpl. unfold float_truediv. rewrite Hgt. simpl. eauto. }
    assert (exists d, py_sub a b = Ok d) as [d Hd].
    { destruct Hla as [[x ->] | ->], Hlb as [[y ->] | ->]; simpl; eauto. }
    rewrite Hd. simpl. destruct (Hrat d Hd) as [r ->]. simpl.
    destruct (Path.noise_attrs p) as [mine|],
             (Path.noise_attrs sp) as [theirs|]; simpl;
      try (destruct (Hnoise mine theirs (py_round d 1)) as [? ->]; simpl);
      destruct (Path.aqi_attrs p) as [mine'|],
               (Path.aqi_attrs sp) as [theirs'|]; simpl;
      try (destruct (Haqi mine' theirs' (py_round d 1)) as [? ->]; simpl);
      eauto.
Qed.

End Differences.

(** ** The GeoJSON feature of a path *)

Section GeoJSON.
Context {X : Externals} {C : Collaborators}.
Implicit Types (p : Path.t).

(** As long as [set_green_path_diff_attrs] has not been called, the two
    differences are what [__init__] made them. *)
Lemma without_diff_len_diff p :
  Path.without_diff p ->
  Path.len_diff p = PyInt 0 /\ Path.len_diff_rat p = None.
Proof.
  induction 1 as [ | | | G p p' _ IH H | p p' _ IH H | db p p' _ IH H
                 | p p' _ IH H | aq noise p p' _ IH H ]; try exact IHwithout_diff.
  - split; reflexivity.
  - unfold Path.set_path_edges in H. bind_inv H.
    inversion H; subst p'. exact IH.
  - apply aggregate_path_attrs_Ok in H.
    destruct H as (? & ? & ? & _ & _ & _ & ->). exact IH.
  - unfold Path.set_noise_attrs in H.
    destruct (negb (Path.missing_noises p)).
    + bind_inv H. inversion H; subst p'. exact IH.
    + inversion H; subst p'. exact IH.
  - unfold Path.set_aqi_attrs in H.
    destruct (negb (Path.missing_aqi p)).
    + bind_inv H. inversion H; subst p'. exact IH.
    + inversion H; subst p'. exact IH.
  - unfold Path.aggregate_edge_groups_by_attr in H.
    destruct (_ || _); [discriminate|].
    inversion H; subst p'. exact IH.
Qed.

(** C10. After construction [len_diff] is the int 0 and [len_diff_rat] is
    [None]; as long as [set_green_path_diff_attrs] has not been called, the
    feature that [get_as_geojson_feature] returns has [None] as its
    property 'len_diff_rat' (the property dicts of the summaries not
    defining that key). *)
Theorem len_diff_rat_none_emitted :
  (forall orig_node edge_ids name path_type cost_coeff,
      Path.len_diff (Path.init orig_node edge_ids name path_type cost_coeff)
      = PyInt 0
      /\ Path.len_diff_rat
           (Path.init orig_node edge_ids name path_type cost_coeff)
         = None)
  /\ (forall p f,
        Path.without_diff p ->
        Path.summaries_leave "len_diff_rat" p ->
        Path.get_as_geojson_feature p = Ok f ->
        properties f !! "len_diff_rat" = Some VNone).
Proof.
  split; [split; reflexivity|].
  intros p f Hwd [Hnoise Haqi] H.
  apply without_diff_len_diff in Hwd as [_ Hrat].
  unfold Path.get_as_geojson_feature in H.
  bind_inv H. bind_inv H. bind_inv H. bind_inv H.
  inversion H; subst f; clear H. simpl.
  assert (Ha3 : a2 !! "len_diff_rat" = None).
  { destruct (Path.aqi_attrs p) as [aa|].
    - apply propagate_Ok_inv in Ha2. eauto.
    - inversion Ha2. apply lookup_empty. }
  assert (Ha4 : a1 !! "len_diff_rat" = None).
  { destruct (Path.noise_attrs p) as [na|].
    - apply propagate_Ok_inv in Ha1. eauto.
    - inversion Ha1. apply lookup_empty. }
  rewrite lookup_union_r by exact Ha3.
  rewrite lookup_union_r by exact Ha4.
  rewrite Hrat. simpl.
  do 5 (rewrite lookup_insert_ne by discriminate).
  apply lookup_insert_eq.
Qed.

End GeoJSON.

(** ** More on the segmentation: the groups are the maximal runs *)

Section Runs.
Context {X : Externals}.
Implicit Types (p : Path.t) (es cur : list PathEdge.t) (gs : list Path.group).

(** Edges of one value go to one group, after whatever the buffer holds. *)
Lemma runs_same_value (aq : bool) (v : Z) es : forall cur,
  Forall (fun e => Path.group_value aq e = v) es ->
  Path.runs aq v cur es = [(v, cur ++ es)].
Proof.
  induction es as [|e es IH]; intros cur Hes; simpl.
  - now rewrite app_nil_r.
  - apply Forall_cons in Hes as [He Hes'].
    rewrite He, Z.eqb_refl, IH by assumption.
    now rewrite <- app_assoc.
Qed.

(** X2. A path that has edges, all of one value in the chosen dimension,
    gets exactly one group, of that value and with all the edges; so does
    a path of one edge. The value may be 0, the initial [cur_group_id]. *)
Theorem same_value_one_group (aq noise : bool) p (v : Z) :
  aq <> noise ->
  Path.edges p <> [] ->
  Forall (fun e => Path.group_value aq e = v) (Path.edges p) ->
  Path.appends aq noise p [(v, Path.edges p)].
Proof.
  intros Hsel Hne Hall. apply appends_runs. split; [exact Hsel|].
  destruct (Path.edges p) as [|e es]; [contradiction|].
  apply Forall_cons in Hall as [He Hes]. simpl.
  destruct (Path.group_value aq e =? 0) eqn:E.
  - apply Z.eqb_eq in E. assert (v = 0) as -> by congruence.
    now rewrite runs_same_value.
  - simpl. rewrite He. now rewrite runs_same_value.
Qed.

Lemma alternating_tail (g : Path.group) gs :
  Path.alternating (g :: gs) -> Path.alternating gs.
Proof. intros H i a b Ha Hb. exact (H (S i) a b Ha Hb). Qed.

Lemma alternating_head (g h : Path.group) gs :
  Path.alternating (g :: h :: gs) -> fst g <> fst h.
Proof. intros H. exact (H 0%nat g h eq_refl eq_refl). Qed.

(** Two runs of value [v], each followed by an edge of another value or by
    nothing, are the same run when they start the same list. *)
Lemma run_unique (aq : bool) (v : Z) c : forall c' r r',
  Forall (fun e => Path.group_value aq e = v) c ->
  Forall (fun e => Path.group_value aq e = v) c' ->
  Path.starts_other aq v r -> Path.starts_other aq v r' ->
  c ++ r = c' ++ r' ->
  c = c' /\ r = r'.
Proof.
  induction c as [|x c IH]; intros c' r r' Hc Hc' Hr Hr' Heq.
  - destruct c' as [|x' c']; [now split|].
    simpl in Heq. subst r. apply Forall_cons in Hc' as [Hx _]. now elim Hr.
  - destruct c' as [|x' c'].
    + simpl in Heq. subst r'. apply Forall_cons in Hc as [Hx _].
      now elim Hr'.
    + simpl in Heq. inversion Heq; subst x'.
      apply Forall_cons in Hc as [_ Hc], Hc' as [_ Hc'].
      destruct (IH c' r r') as [-> ->]; auto.
Qed.

(** What follows the first run of a partition starts with another value. *)
Lemma run_partition_rest (aq : bool) (g : Path.group) gs :
  Forall (fun h : Path.group => snd h <> []) gs ->
  Forall (Path.homogeneous aq) gs ->
  Path.alternating (g :: gs) ->
  Path.starts_other aq (fst g) (concat (map snd gs)).
Proof.
  intros Hne Hhom Halt. destruct gs as [|[w d] gs]; simpl; [exact I|].
  apply alternating_head in Halt. simpl in Halt.
  apply Forall_cons in Hne as [Hd _]. apply Forall_cons in Hhom as [Hw _].
  unfold Path.homogeneous in Hw. simpl in Hd, Hw.
  destruct d as [|e d]; [contradiction|]. simpl.
  apply Forall_cons in Hw as [He _]. congruence.
Qed.

Lemma run_partition_cons (aq : bool) (v : Z) c gs es :
  Path.run_partition aq es ((v, c) :: gs) <->
  es = c ++ concat (map snd gs)
  /\ c <> []
  /\ Forall (fun e => Path.group_value aq e = v) c
  /\ Path.alternating ((v, c) :: gs)
  /\ Path.run_partition aq (concat (map snd gs)) gs.
Proof.
  unfold Path.run_partition. simpl. rewrite !Forall_cons. simpl.
  unfold Path.homogeneous at 1. simpl. split.
  - intros (<- & [Hc Hne] & [Hv Hhom] & Halt).
    repeat split; auto. eapply alternating_tail; eauto.
  - intros (-> & Hc & Hv & Halt & _ & Hne & Hhom & _). repeat split; auto.
Qed.

(** A list of edges has one partition into runs. *)
Lemma run_partition_unique (aq : bool) gs : forall es gs',
  Path.run_partition aq es gs -> Path.run_partition aq es gs' -> gs = gs'.
Proof.
  induction gs as [|[v c] gs IH]; intros es gs' H H'.
  - destruct H as (Hes & _). simpl in Hes. subst es.
    destruct gs' as [|[v' c'] gs']; [reflexivity|].
    apply run_partition_cons in H' as (Hes & Hc' & _).
    destruct c'; [contradiction | discriminate].
  - apply run_partition_cons in H as (Hes & Hc & Hv & Halt & Hrest).
    destruct gs' as [|[v' c'] gs'].
    + destruct H' as (Hes' & _). simpl in Hes'. subst es.
      destruct c; [contradiction | discriminate].
    + apply run_partition_cons in H' as (Hes' & Hc' & Hv' & Halt' & Hrest').
      rewrite Hes in Hes'.
      assert (v = v') as <-.
      { destruct c as [|e c]; [contradiction|].
        destruct c' as [|e' c']; [contradiction|].
        simpl in Hes'. inversion Hes'; subst e'.
        apply Forall_cons in Hv as [Hv _], Hv' as [Hv' _]. congruence. }
      destruct Hrest as (? & Hne & Hhom & ?).
      destruct Hrest' as (? & Hne' & Hhom' & ?).
      destruct (run_unique aq v c c' (concat (map snd gs))
                  (concat (map snd gs'))) as [<- Hsame]; auto.
      * apply (run_partition_rest aq (v, c)); assumption.
      * apply (run_partition_rest aq (v, c')); assumption.
      * f_equal. apply (IH (concat (map snd gs))).
        -- repeat split; auto.
        -- rewrite Hsame. repeat split; auto.
Qed.

(** X1. On a path that has edges, the groups a call appends are the one
    partition of the edge list into runs: groups that are not empty, each
    of one value, neighbouring groups of different values, and the edges
    in order. *)
Theorem appends_iff_run_partition (aq noise : bool) p gs :
  aq <> noise ->
  Path.edges p <> [] ->
  Path.appends aq noise p gs <-> Path.run_partition aq (Path.edges p) gs.
Proof.
  intros Hsel Hne.
  assert (Hruns : Path.run_partition aq (Path.edges p)
                    (Path.runs aq 0 [] (Path.edges p))).
  { split; [apply runs_concat|]. split; [apply runs_nonempty; now right|].
    split; [apply runs_homogeneous; constructor | apply runs_alternating]. }
  rewrite appends_runs. split.
  - intros [_ ->]. exact Hruns.
  - intros Hgs. split; [exact Hsel|].
    exact (run_partition_unique aq gs _ _ Hgs Hruns).
Qed.

End Runs.

(** ** The features of the edge groups *)

Section GroupFeatures.
Context {X : Externals} {C : Collaborators}.
Implicit Types (p : Path.t) (gs : list Path.group).

Lemma round_coordinates_app (a b : list coord) (digits : nat) :
  geom_utils.round_coordinates (a ++ b) digits
  = geom_utils.round_coordinates a digits
    ++ geom_utils.round_coordinates b digits.
Proof. unfold geom_utils.round_coordinates. apply map_app. Qed.

(** The coordinates of the features of some groups, one after the other,
    are the rounded coordinates of the edges of the groups. *)
Lemma group_features_coordinates gs :
  concat (map (fun g : Path.group =>
                 geom_utils.round_coordinates
                   (flat_map PathEdge.coords_wgs (snd g)) 6) gs)
  = geom_utils.round_coordinates
      (flat_map PathEdge.coords_wgs (concat (map snd gs))) 6.
Proof.
  induction gs as [|g gs IH]; simpl; [reflexivity|].
  now rewrite IH, flat_map_app, round_coordinates_app.
Qed.

(** X3. After a path as constructed and resolved has been grouped, there
    is one feature per group, and the coordinates of the features of the
    groups, one after the other, are the coordinates of the feature of the
    whole path: the groups cover the route, each rounded coordinate once,
    in order. *)
Theorem group_features_cover_path (aq noise : bool) p p' :
  Path.edge_groups p = [] ->
  Path.aggregate_edge_groups_by_attr aq noise p = Ok p' ->
  List.length (Path.get_edge_groups_as_features p')
  = List.length (Path.edge_groups p')
  /\ concat (map (fun f => coordinates (feature_geom f))
               (Path.get_edge_groups_as_features p'))
     = geom_utils.round_coordinates
         (flat_map PathEdge.coords_wgs (Path.edges p')) 6
  /\ (forall f, Path.get_as_geojson_feature p' = Ok f ->
        concat (map (fun f => coordinates (feature_geom f))
                  (Path.get_edge_groups_as_features p'))
        = coordinates (feature_geom f)).
Proof.
  intros Hfresh Hcall.
  assert (Hcoords :
    concat (map (fun f => coordinates (feature_geom f))
              (Path.get_edge_groups_as_features p'))
    = geom_utils.round_coordinates
        (flat_map PathEdge.coords_wgs (Path.edges p')) 6).
  { assert (Hsel : aq <> noise).
    { intros ->. unfold Path.aggregate_edge_groups_by_attr in Hcall.
      rewrite selectors_rejected, Bool.eqb_reflx in Hcall. discriminate. }
    rewrite (aggregate_edge_groups_eq _ _ _ Hsel) in Hcall.
    inversion Hcall; subst p'; clear Hcall.
    unfold Path.get_edge_groups_as_features. simpl.
    rewrite Hfresh, map_map. simpl.
    rewrite group_features_coordinates. now rewrite runs_concat. }
  split; [|split].
  - unfold Path.get_edge_groups_as_features. apply length_map.
  - exact Hcoords.
  - intros f Hf. rewrite Hcoords.
    unfold Path.get_as_geojson_feature in Hf.
    bind_inv Hf. bind_inv Hf. bind_inv Hf. bind_inv Hf.
    now inversion Hf.
Qed.

End GroupFeatures.

(** ** More on the aggregation and on the summaries *)

Section Pipeline.
Context {X : Externals} {C : Collaborators}.
Implicit Types (p : Path.t) (es : list PathEdge.t).

(** X4. [aggregate_path_attrs] raises exactly when the geometry library
    rejects the concatenated coordinates of the edges, and then with the
    error of the library; summing and rounding the lengths never raises.
    Otherwise it returns. *)
Theorem aggregate_path_attrs_outcome p :
  (forall e, Path.aggregate_path_attrs p = Raise e <->
     exists o, LineString (flat_map PathEdge.coords (Path.edges p)) = Failed o
               /\ e = Propagated o)
  /\ (returns (Path.aggregate_path_attrs p) <->
      exists geom,
        LineString (flat_map PathEdge.coords (Path.edges p)) = Returned geom).
Proof.
  split; [|apply aggregate_path_attrs_returns].
  intros e. unfold Path.aggregate_path_attrs.
  destruct (LineString _) as [geom|o]; simpl.
  - rewrite !py_sum_floats. simpl. split; [discriminate|].
    intros (o & Ho & _). discriminate.
  - split.
    + intros H. inversion H. eauto.
    + intros (o' & Ho & ->). now inversion Ho.
Qed.

(** X5. [aggregate_path_attrs] can be repeated: a second call on the path
    it has returned returns that path again. *)
Theorem aggregate_path_attrs_idempotent p p' :
  Path.aggregate_path_attrs p = Ok p' ->
  Path.aggregate_path_attrs p' = Ok p'.
Proof.
  intros H. apply aggregate_path_attrs_Ok in H.
  destruct H as (geom & total & total_b & Hg & Ht & Hb & ->).
  apply aggregate_path_attrs_Ok. exists geom, total, total_b. simpl.
  repeat split; assumption.
Qed.

(** X6. The lengths that [aggregate_path_attrs] assigns are floats on a
    path that has edges, and the int 0 on a path without edges, on which
    the two missing-data flags are false. *)
Theorem aggregated_lengths p p' :
  Path.aggregate_path_attrs p = Ok p' ->
  (Path.edges p = [] ->
   Path.length p' = Some (PyInt 0) /\ Path.length_b p' = Some (PyInt 0)
   /\ Path.missing_noises p' = false /\ Path.missing_aqi p' = false)
  /\ (Path.edges p <> [] ->
      exists len len_b,
        Path.length p' = Some (PyFloat len)
        /\ Path.length_b p' = Some (PyFloat len_b)).
Proof.
  intros H. apply aggregate_path_attrs_Ok in H.
  destruct H as (geom & total & total_b & _ & Ht & Hb & ->). simpl.
  rewrite py_sum_floats in Ht, Hb. split.
  - intros Hes. rewrite Hes in *. inversion Ht; inversion Hb. auto.
  - intros Hes. destruct (Path.edges p) as [|e es]; [contradiction|].
    inversion Ht; inversion Hb. simpl. eauto.
Qed.

Lemma None_in_false {A B : Type} (f : A -> option B) (l : list A) :
  Path.None_in (map f l) = false <-> Forall (fun x => is_Some (f x)) l.
Proof.
  rewrite <- not_true_iff_false, None_in_map, Forall_forall. split.
  - intros Hno x Hx. destruct (f x) eqn:E; [eauto|].
    elim Hno. eauto.
  - intros Hall (x & Hx & Hnone).
    specialize (Hall x Hx). rewrite Hnone in Hall. now destruct Hall.
Qed.

(** X7. Along the calls [aggregate_path_attrs], [set_noise_attrs],
    [set_aqi_attrs] on a path without summaries, the noise summary is set
    exactly when every edge has a noise value, and is then what the factory
    has returned for the noise values of the edges, in order, and the
    aggregated length; likewise for the air-quality summary. *)
Theorem summaries_iff_complete_data p p1 p2 p3 (db_costs : DbCosts) :
  Path.noise_attrs p = None -> Path.aqi_attrs p = None ->
  Path.aggregate_path_attrs p = Ok p1 ->
  Path.set_noise_attrs db_costs p1 = Ok p2 ->
  Path.set_aqi_attrs p2 = Ok p3 ->
  (is_Some (Path.noise_attrs p3)
   <-> Forall (fun e => is_Some (PathEdge.noises e)) (Path.edges p))
  /\ (forall na, Path.noise_attrs p3 = Some na ->
        create_path_noise_attrs (map PathEdge.noises (Path.edges p))
          db_costs (Path.length p1) = Returned na)
  /\ (is_Some (Path.aqi_attrs p3)
      <-> Forall (fun e => is_Some (PathEdge.aqi e)) (Path.edges p))
  /\ (forall aa, Path.aqi_attrs p3 = Some aa ->
        create_aqi_attrs
          (map (fun e => (PathEdge.aqi e, PathEdge.length e)) (Path.edges p))
          (Path.length p1) = Returned aa).
Proof.
  intros Hna Haa H1 H2 H3. apply aggregate_path_attrs_Ok in H1.
  destruct H1 as (geom & total & total_b & _ & _ & _ & ->).
  unfold Path.set_noise_attrs in H2. simpl in H2.
  unfold Path.set_aqi_attrs in H3.
  destruct (Path.None_in (map PathEdge.noises (Path.edges p))) eqn:En;
    simpl in H2.
  - inversion H2; subst p2; clear H2. simpl in H3.
    assert (Hnoise : ~ Forall (fun e => is_Some (PathEdge.noises e))
                       (Path.edges p)).
    { intros Hall. apply None_in_false in Hall. congruence. }
    destruct (Path.None_in (map PathEdge.aqi (Path.edges p))) eqn:Ea;
      simpl in H3.
    + inversion H3; subst p3; clear H3. simpl. rewrite Hna, Haa.
      assert (Haqi : ~ Forall (fun e => is_Some (PathEdge.aqi e))
                       (Path.edges p)).
      { intros Hall. apply None_in_false in Hall. congruence. }
      split; [split; [intros [? ?]; discriminate | tauto]|].
      split; [discriminate|].
      split; [split; [intros [? ?]; discriminate | tauto] | discriminate].
    + bind_inv H3. apply propagate_Ok_inv in Ha.
      inversion H3; subst p3; clear H3. simpl. rewrite Hna.
      apply None_in_false in Ea.
      split; [split; [intros [? ?]; discriminate | tauto]|].
      split; [discriminate|]. split; [split; eauto|].
      intros aa Haa'. inversion Haa'; subst aa. exact Ha.
  - bind_inv H2. apply propagate_Ok_inv in Ha.
    inversion H2; subst p2; clear H2. simpl in H3.
    apply None_in_false in En.
    destruct (Path.None_in (map PathEdge.aqi (Path.edges p))) eqn:Ea;
      simpl in H3.
    + inversion H3; subst p3; clear H3. simpl. rewrite Haa.
      assert (Haqi : ~ Forall (fun e => is_Some (PathEdge.aqi e))
                       (Path.edges p)).
      { intros Hall. apply None_in_false in Hall. congruence. }
      split; [split; eauto|].
      split; [intros na Hna'; inversion Hna'; subst na; exact Ha|].
      split; [split; [intros [? ?]; discriminate | tauto] | discriminate].
    + bind_inv H3. apply propagate_Ok_inv in Ha0.
      inversion H3; subst p3; clear H3. simpl.
      apply None_in_false in Ea.
      split; [split; eauto|].
      split; [intros na Hna'; inversion Hna'; subst na; exact Ha|].
      split; [split; eauto|].
      intros aa Haa'. inversion Haa'; subst aa. exact Ha0.
Qed.

End Pipeline.

(** ** More on the differences and on the feature of a path *)

Section Lifecycle.
Context {X : Externals} {C : Collaborators}.
Implicit Types (p sp : Path.t).

(** A finite float is a zero or a finite binary number. *)
Lemma is_finite_SF (x : float) :
  is_finite x = true ->
  (exists s, Prim2SF x = S754_zero s)
  \/ (exists s m e, Prim2SF x = S754_finite s m e).
Proof.
  unfold is_finite, Prim2SF. intros H.
  destruct (is_nan x); [discriminate|].
  destruct (is_infinity x); [discriminate|].
  destruct (PrimFloat.is_zero x); [eauto|].
  destruct (Z.frexp x) as [r ex].
  destruct (shr_fexp _ _ _ _ _) as [sh e'].
  destruct (shr_m sh); eauto.
Qed.

(** A finite float minus itself is [0.0]. *)
Lemma float_sub_diag (x : float) : is_finite x = true -> (x - x)%float = 0%float.
Proof.
  intros H. rewrite <- (SF2Prim_Prim2SF (x - x)), sub_spec.
  destruct (is_finite_SF x H) as [[s ->] | (s & m & e & ->)].
  - now destruct s.
  - unfold SF64sub, SFsub. rewrite Z.sub_diag. reflexivity.
Qed.

(** [0.0] divided by a float greater than 0 is [0.0]. *)
Lemma float_zero_div (x : float) :
  py_gt (PyFloat x) (PyInt 0) = true -> (0 / x)%float = 0%float.
Proof.
  simpl. unfold float_cmp_int. intros H.
  rewrite <- (SF2Prim_Prim2SF (0 / x)), div_spec.
  change (Prim2SF 0) with (S754_zero false).
  destruct (Prim2SF x) as [s|s| |s m e]; simpl in H; try discriminate.
  - now destruct s.
  - destruct s; [|reflexivity]. exfalso.
    destruct (0 <=? e).
    + pose proof (Z.pow_nonneg 2 e ltac:(lia)) as Hpow.
      destruct (Z.compare_spec (Z.neg m * 2 ^ e) 0); try discriminate. nia.
    + rewrite Z.mul_0_l in H. discriminate.
Qed.

(** As long as [set_green_path_diff_attrs] has not been called, the
    geometry and the two lengths are set together, by
    [aggregate_path_attrs]. *)
Lemma without_diff_aggregated p :
  Path.without_diff p ->
  (Path.length p = None <-> Path.geometry p = None)
  /\ (Path.length_b p = None <-> Path.geometry p = None).
Proof.
  induction 1 as [ | | | G p p' _ IH H | p p' _ IH H | db p p' _ IH H
                 | p p' _ IH H | aq noise p p' _ IH H ]; try exact IHwithout_diff.
  - split; split; reflexivity.
  - unfold Path.set_path_edges in H. bind_inv H.
    inversion H; subst p'. exact IH.
  - apply aggregate_path_attrs_Ok in H.
    destruct H as (? & ? & ? & _ & _ & _ & ->). simpl.
    split; split; discriminate.
  - unfold Path.set_noise_attrs in H.
    destruct (negb (Path.missing_noises p)).
    + bind_inv H. inversion H; subst p'. exact IH.
    + inversion H; subst p'. exact IH.
  - unfold Path.set_aqi_attrs in H.
    destruct (negb (Path.missing_aqi p)).
    + bind_inv H. inversion H; subst p'. exact IH.
    + inversion H; subst p'. exact IH.
  - unfold Path.aggregate_edge_groups_by_attr in H.
    destruct (_ || _); [discriminate|].
    inversion H; subst p'. exact IH.
Qed.

(** X8. Before [aggregate_path_attrs] has returned on a path (its
    geometry is still [None]), [get_as_geojson_feature] returns no
    feature: once the value of the path type is read it raises
    [AttributeError] for [length_b], which [__init__] does not create.
    After it, the feature is returned whenever the collaborators answer. *)
Theorem feature_needs_aggregation p :
  Path.without_diff p ->
  (Path.geometry p = None ->
   (forall f, Path.get_as_geojson_feature p <> Ok f)
   /\ (forall tv, path_type_value (Path.path_type p) = Returned tv ->
         Path.get_as_geojson_feature p = Raise (AttributeError "length_b")))
  /\ (Path.geometry p <> None ->
      (exists tv, path_type_value (Path.path_type p) = Returned tv) ->
      (forall na, Path.noise_attrs p = Some na ->
                  exists d, get_noise_props_dict na = Returned d) ->
      (forall aa, Path.aqi_attrs p = Some aa ->
                  exists d, get_aqi_props_dict aa = Returned d) ->
      returns (Path.get_as_geojson_feature p)).
Proof.
  intros Hwd. apply without_diff_aggregated in Hwd as [_ Hb]. split.
  - intros Hgeom. apply Hb in Hgeom.
    unfold Path.get_as_geojson_feature. rewrite Hgeom. split.
    + intros f. destruct (path_type_value _); simpl; discriminate.
    + intros tv ->. reflexivity.
  - intros Hgeom [tv Htv] Hnoise Haqi.
    unfold returns, Path.get_as_geojson_feature. rewrite Htv. simpl.
    destruct (Path.length_b p) as [lb|] eqn:Elb;
      [|elim Hgeom; now apply Hb].
    simpl.
    destruct (Path.noise_attrs p) as [na|].
    + destruct (Hnoise na eq_refl) as [d ->]. simpl.
      destruct (Path.aqi_attrs p) as [aa|].
      * destruct (Haqi aa eq_refl) as [d' ->]. simpl. eauto.
      * simpl. eauto.
    + simpl. destruct (Path.aqi_attrs p) as [aa|].
      * destruct (Haqi aa eq_refl) as [d' ->]. simpl. eauto.
      * simpl. eauto.
Qed.

(** X9. Before [aggregate_path_attrs] has returned on the path or on the
    shortest path (its geometry is still [None]),
    [set_green_path_diff_attrs] raises [TypeError]: a length is [None]. No
    attribute has been assigned and no summary consulted by then. *)
Theorem diff_needs_aggregation sp p :
  (Path.without_diff p /\ Path.geometry p = None)
  \/ (Path.without_diff sp /\ Path.geometry sp = None) ->
  Path.set_green_path_diff_attrs sp p = Raise TypeError.
Proof.
  unfold Path.set_green_path_diff_attrs.
  intros [[Hwd Hgeom] | [Hwd Hgeom]];
    apply without_diff_aggregated in Hwd as [Hlen _];
    apply Hlen in Hgeom; rewrite Hgeom; [reflexivity|].
  now destruct (Path.length p).
Qed.

(** X10. A path compared with itself: when its length is finite, a call
    that returns has set [len_diff] and [len_diff_rat] to zero, and a call
    that raises only passes on the error of a summary. *)
Theorem self_diff_is_zero p (a : num) :
  Path.length p = Some a ->
  finite_num a = true ->
  (forall p', Path.set_green_path_diff_attrs p p = Ok p' ->
     is_zero (Path.len_diff p') = true
     /\ exists r, Path.len_diff_rat p' = Some r /\ is_zero r = true)
  /\ (forall e, Path.set_green_path_diff_attrs p p = Raise e ->
        exists o, e = Propagated o).
Proof.
  intros Hlen Hfin.
  assert (Hhead : exists d r,
    is_zero d = true /\ is_zero r = true
    /\ Path.set_green_path_diff_attrs p p
       = (na <- match Path.noise_attrs p, Path.noise_attrs p with
                | Some mine, Some theirs =>
                    x <- propagate (set_noise_diff_attrs mine theirs d) ;;
                    Ok (Some x)
                | mine, _ => Ok mine
                end ;;
          aa <- match Path.aqi_attrs p, Path.aqi_attrs p with
                | Some mine, Some theirs =>
                    x <- propagate (set_aqi_diff_attrs mine theirs d) ;;
                    Ok (Some x)
                | mine, _ => Ok mine
                end ;;
          Ok {| Path.orig_node := Path.orig_node p;
                Path.edge_ids := Path.edge_ids p;
                Path.edges := Path.edges p;
                Path.edge_groups := Path.edge_groups p;
                Path.name := Path.name p;
                Path.path_type := Path.path_type p;
                Path.cost_coeff := Path.cost_coeff p;
                Path.geometry := Path.geometry p;
                Path.length := Path.length p;
                Path.length_b := Path.length_b p;
                Path.len_diff := d;
                Path.len_diff_rat := Some r;
                Path.missing_aqi := Path.missing_aqi p;
                Path.missing_noises := Path.missing_noises p;
                Path.noise_attrs := na;
                Path.aqi_attrs := aa |})).
  { unfold Path.set_green_path_diff_attrs. rewrite Hlen. simpl.
    destruct a as [z|x]; simpl.
    - rewrite Z.sub_diag.
      destruct (0 <? z) eqn:Hz.
      + exists (PyInt 0), (PyFloat 0). split; [reflexivity|].
        split; [reflexivity|].
        unfold int_truediv.
        destruct z as [|z|z]; try discriminate. reflexivity.
      + exists (PyInt 0), (PyInt 0). auto.
    - simpl in Hfin. rewrite (float_sub_diag x Hfin).
      change (float_round 0 1) with 0%float.
      destruct (match float_cmp_int x 0 with
                | Some Gt => true
                | _ => false
                end) eqn:Hgt.
      + exists (PyFloat 0), (PyFloat 0). split; [reflexivity|].
        split; [reflexivity|].
        pose proof (gt_not_is_zero (PyFloat x) Hgt) as Hnz.
        pose proof (float_zero_div x Hgt) as Hdiv.
        simpl in Hnz. unfold float_truediv. rewrite Hnz. simpl.
        rewrite Hdiv. reflexivity.
      + exists (PyFloat 0), (PyInt 0). auto. }
  destruct Hhead as (d & r & Hd & Hr & ->). split.
  - intros p' H. bind_inv H. bind_inv H. inversion H; subst p'. simpl. eauto.
  - intros e H.
    destruct (Path.noise_attrs p) as [na|]; simpl in H.
    + destruct (set_noise_diff_attrs na na d); simpl in H;
        [|inversion H; eauto].
      destruct (Path.aqi_attrs p) as [aa|]; simpl in H; [|discriminate].
      destruct (set_aqi_diff_attrs aa aa d); simpl in H;
        [discriminate | inversion H; eauto].
    + destruct (Path.aqi_attrs p) as [aa|]; simpl in H; [|discriminate].
      destruct (set_aqi_diff_attrs aa aa d); simpl in H;
        [discriminate | inversion H; eauto].
Qed.

(** X11. In the feature of a path the property dicts are merged with the
    later dict winning: a key of the air-quality summary has the value of
    that summary, a key of the noise summary that the air-quality summary
    does not define has the value of the noise summary, even when the key
    is one of the nine properties of the path itself; and each of these
    nine is always defined. *)
Theorem feature_properties_merge p f :
  Path.get_as_geojson_feature p = Ok f ->
  (forall aa d k v,
      Path.aqi_attrs p = Some aa -> get_aqi_props_dict aa = Returned d ->
      d !! k = Some v -> properties f !! k = Some v)
  /\ (forall na d k v,
        Path.noise_attrs p = Some na -> get_noise_props_dict na = Returned d ->
        d !! k = Some v ->
        (forall aa d', Path.aqi_attrs p = Some aa ->
                       get_aqi_props_dict aa = Returned d' -> d' !! k = None) ->
        properties f !! k = Some v)
  /\ Forall (fun k => is_Some (properties f !! k))
       ["type"; "id"; "length"; "length_b"; "len_diff"; "len_diff_rat";
        "cost_coeff"; "missing_aqi"; "missing_noises"].
Proof.
  intros H. unfold Path.get_as_geojson_feature in H.
  bind_inv H. bind_inv H. bind_inv H. bind_inv H.
  inversion H; subst f; clear H. simpl.
  assert (Haqi : forall aa d, Path.aqi_attrs p = Some aa ->
                   get_aqi_props_dict aa = Returned d -> d = a2).
  { intros aa d Eaa Hd. rewrite Eaa, Hd in Ha2. now inversion Ha2. }
  assert (Hnoise : forall na d, Path.noise_attrs p = Some na ->
                     get_noise_props_dict na = Returned d -> d = a1).
  { intros na d Ena Hd. rewrite Ena, Hd in Ha1. now inversion Ha1. }
  split; [|split].
  - intros aa d k v Eaa Hd Hk. rewrite (Haqi aa d Eaa Hd) in Hk.
    now apply lookup_union_Some_l.
  - intros na d k v Ena Hd Hk Hfree. rewrite (Hnoise na d Ena Hd) in Hk.
    assert (a2 !! k = None) as Hnone.
    { destruct (Path.aqi_attrs p) as [aa|] eqn:Eaa.
      - apply propagate_Ok_inv in Ha2. exact (Hfree aa a2 eq_refl Ha2).
      - inversion Ha2. apply lookup_empty. }
    rewrite lookup_union_r by exact Hnone.
    now apply lookup_union_Some_l.
  - repeat (apply Forall_cons; split); try solve [constructor]; cbn beta;
      rewrite !lookup_union_is_Some; right; right;
      repeat (rewrite lookup_insert_ne by discriminate);
      rewrite lookup_insert_eq; eauto.
Qed.

End Lifecycle.

(** ** utils/geometry.py *)

Section Geometry.
Context {L : geometry.Library}.
Import geometry.

(** X12. [get_coords_from_lat_lon] puts the longitude first; it raises
    [KeyError] for 'lon' when that key is missing, whether or not 'lat' is
    there, and for 'lat' when only that key is missing; other keys of the
    dict play no part. [get_point_from_lat_lon] builds the point from these
    two coordinates, and raises the same error without building one. *)
Theorem lat_lon_coords (latLon : gmap string float) :
  (forall lon lat,
      latLon !! "lon" = Some lon -> latLon !! "lat" = Some lat ->
      get_coords_from_lat_lon latLon = Done [lon; lat]
      /\ get_point_from_lat_lon latLon = lift (Point_of [lon; lat]))
  /\ (latLon !! "lon" = None ->
      get_coords_from_lat_lon latLon = Error (KeyError (KStr "lon"))
      /\ get_point_from_lat_lon latLon = Error (KeyError (KStr "lon")))
  /\ (is_Some (latLon !! "lon") -> latLon !! "lat" = None ->
      get_coords_from_lat_lon latLon = Error (KeyError (KStr "lat"))
      /\ get_point_from_lat_lon latLon = Error (KeyError (KStr "lat")))
  /\ (forall (k : string) (v : float),
        k <> "lon" -> k <> "lat" ->
        get_coords_from_lat_lon (<[k := v]> latLon)
        = get_coords_from_lat_lon latLon).
Proof.
  unfold get_point_from_lat_lon, get_coords_from_lat_lon, getitem.
  split; [|split; [|split]].
  - intros lon lat -> ->. split; reflexivity.
  - intros ->. split; reflexivity.
  - intros [lon ->] ->. split; reflexivity.
  - intros k v Hlon Hlat. now rewrite !lookup_insert_ne by assumption.
Qed.

(** X13. The dict of projections holds the two directions between EPSG
    4326 and EPSG 3879 and nothing else: [project_geom] hands the geometry
    to the transformer of the pair for these two pairs, and raises
    [KeyError] for every other pair, a pair of equal codes included; a pair
    is accepted exactly when its reverse is. *)
Theorem project_geom_pairs (geom : Shape) (a b : Z) :
  ((a = 4326 /\ b = 3879) \/ (a = 3879 /\ b = 4326) ->
   project_geom geom a b = lift (transform (from_crs a b) geom))
  /\ (~ ((a = 4326 /\ b = 3879) \/ (a = 3879 /\ b = 4326)) ->
      project_geom geom a b = Error (KeyError (KPair a b)))
  /\ (a = b -> project_geom geom a b = Error (KeyError (KPair a b)))
  /\ (project_geom geom a b = Error (KeyError (KPair a b))
      <-> project_geom geom b a = Error (KeyError (KPair b a))).
Proof.
  assert (Hin : forall x y,
             (x = 4326 /\ y = 3879) \/ (x = 3879 /\ y = 4326) ->
             project_geom geom x y = lift (transform (from_crs x y) geom)).
  { intros x y [[-> ->] | [-> ->]]; reflexivity. }
  assert (Hout : forall x y,
             ~ ((x = 4326 /\ y = 3879) \/ (x = 3879 /\ y = 4326)) ->
             project_geom geom x y = Error (KeyError (KPair x y))).
  { intros x y Hno. unfold project_geom, projections.
    rewrite !lookup_insert_ne, lookup_empty; [reflexivity| |];
      intros Heq; inversion Heq; subst; apply Hno; auto. }
  assert (Hlift : forall x y,
             ((x = 4326 /\ y = 3879) \/ (x = 3879 /\ y = 4326)) ->
             project_geom geom x y <> Error (KeyError (KPair x y))).
  { intros x y Hxy. rewrite (Hin x y Hxy).
    destruct (transform _ _); discriminate. }
  split; [apply Hin|]. split; [apply Hout|]. split.
  - intros ->. apply Hout. lia.
  - destruct (decide ((a = 4326 /\ b = 3879) \/ (a = 3879 /\ b = 4326)))
      as [Hyes | Hno].
    + split; intros H.
      * now apply Hlift in H.
      * apply Hlift in H; [contradiction | tauto].
    + split; intros _; apply Hout; tauto.
Qed.

(** X14. [get_split_lines] returns what the library has split the snapped
    line into, unless that is exactly one piece: then, and only then, it
    raises [ValueError]. What it returns never has one piece, but it is not
    checked to have two: it may have none, or more. *)
Theorem get_split_lines_outcome (line : Line) (point : Point) (tol : float) :
  (forall pieces, get_split_lines line point tol = Done pieces <->
     exists snapped, snap line point tol = Returned snapped
                     /\ split snapped point = Returned pieces
                     /\ List.length pieces <> 1%nat)
  /\ (forall msg, get_split_lines line point tol = Error (ValueError msg) ->
        exists snapped piece,
          snap line point tol = Returned snapped
          /\ split snapped point = Returned [piece])
  /\ (forall snapped piece,
        snap line point tol = Returned snapped ->
        split snapped point = Returned [piece] ->
        exists msg, get_split_lines line point tol = Error (ValueError msg)).
Proof.
  unfold get_split_lines. split; [|split].
  - intros pieces. split.
    + intros H.
      destruct (snap line point tol) as [snapped|]; simpl in H;
        [|discriminate].
      destruct (split snapped point) as [ps|] eqn:Hs; simpl in H;
        [|discriminate].
      revert H. destruct (Nat.eqb_spec (List.length ps) 1); intros H;
        [discriminate|].
      inversion H; subst ps. eauto.
    + intros (snapped & -> & Hs & Hlen). simpl. rewrite Hs. simpl.
      now destruct (Nat.eqb_spec (List.length pieces) 1).
  - intros msg H.
    destruct (snap line point tol) as [snapped|]; simpl in H;
      [|discriminate].
    destruct (split snapped point) as [ps|] eqn:Hs; simpl in H;
      [|discriminate].
    revert H. destruct (Nat.eqb_spec (List.length ps) 1) as [Hlen|];
      intros H; [|discriminate].
    destruct ps as [|piece [|? ?]]; try discriminate. eauto.
  - intros snapped piece -> Hs. simpl. rewrite Hs. simpl. eauto.
Qed.


Lemma lift_Done_inv {A : Type} (r : answer A) (a : A) :
  lift r = Done a -> r = Returned a.
Proof. destruct r; simpl; congruence. Qed.





End Geometry.

(** * The methods on examples *)

Module Examples.
Import Demo Plane.

Lemma edge_groups_concat_witness :
  exists gs, Path.appends true false three_edges gs
             /\ concat (map snd gs) = [e0; e1; e2].
Proof. apply (edge_groups_concat true false three_edges). discriminate. Defined.

Lemma edge_groups_homogeneous_maximal_witness :
  exists gs, Path.appends false true three_edges gs
             /\ Forall (Path.homogeneous false) gs
             /\ Path.alternating gs.
Proof.
  apply (edge_groups_homogeneous_maximal false true three_edges).
  discriminate.
Defined.

Lemma edge_groups_of_no_edge_witness :
  Path.appends true false no_edges [(0, [])].
Proof.
  apply (edge_groups_of_no_edge true false no_edges);
    [discriminate | reflexivity].
Defined.

Lemma selectors_value_error_witness :
  exists p', Path.aggregate_edge_groups_by_attr false true three_edges
             = Ok p'.
Proof.
  apply (proj2 (selectors_value_error false true three_edges)).
  right. split; reflexivity.
Defined.

Lemma alternating_values_three_groups_witness :
  Path.appends true false three_edges
    [(1, [e0]); (2, [e1]); (1, [e2])].
Proof.
  apply (alternating_values_three_groups true false three_edges);
    solve [discriminate | reflexivity].
Defined.

Lemma second_call_appends_again_witness :
  exists p2,
    Path.aggregate_edge_groups_by_attr true false grouped = Ok p2
    /\ Path.edge_groups p2
       = [(1, [e0]); (2, [e1]); (1, [e2]); (1, [e0]); (2, [e1]); (1, [e2])].
Proof.
  assert (Hgrouped : Path.aggregate_edge_groups_by_attr true false three_edges
                     = Ok grouped) by (vm_compute; reflexivity).
  destruct (second_call_appends_again true false three_edges grouped Hgrouped)
    as (gs & p2 & Hfirst & Hcall & _ & Hfresh & _).
  exists p2. split; [exact Hcall|].
  rewrite (Hfresh eq_refl). reflexivity.
Defined.

Lemma missing_data_propagation_witness :
  Path.missing_noises aggregated = true
  /\ Path.set_noise_attrs no_costs aggregated = Ok aggregated
  /\ Path.noise_attrs aggregated = None.
Proof.
  assert (Hagg : Path.aggregate_path_attrs three_edges = Ok aggregated)
    by (vm_compute; reflexivity).
  destruct (missing_data_propagation three_edges aggregated Hagg)
    as (Hmissing & Hset & _).
  assert (Hm : Path.missing_noises aggregated = true).
  { apply Hmissing. exists e1. split; [|reflexivity].
    change (e1 ∈ [e0; e1; e2]). apply list_elem_of_In. right. left.
    reflexivity. }
  destruct (Hset Hm no_costs) as (Hcall & _ & Hnone).
  split; [exact Hm|]. split; [exact Hcall|]. apply Hnone. reflexivity.
Defined.

Lemma length_aggregation_witness :
  exists len len_b,
    Path.length aggregated = Some len
    /\ Path.length_b aggregated = Some len_b
    /\ sum_then_round (map PathEdge.length (Path.edges three_edges)) 2
       = Ok len
    /\ sum_then_round (map PathEdge.length_b (Path.edges three_edges)) 2
       = Ok len_b
    /\ sum_then_round [0x1p-8; 0x1p-8; 0x1p-7]%float 2
       <> round_then_sum [0x1p-8; 0x1p-8; 0x1p-7]%float 2.
Proof.
  apply (length_aggregation three_edges aggregated).
  vm_compute. reflexivity.
Defined.

(** The lengths [2^-8; 2^-8; 2^-7] of the example: the path length is
    [0.02], the sum of the rounded lengths would be [0.01]. *)
Example length_aggregation_example :
  Path.length aggregated = Some (PyFloat 0x1.47ae147ae147bp-6)
  /\ round_then_sum (map PathEdge.length (Path.edges three_edges)) 2
     = Ok (PyFloat 0x1.47ae147ae147bp-7).
Proof. split; vm_compute; reflexivity. Qed.

Lemma len_diff_attrs_witness :
  returns (Path.set_green_path_diff_attrs nowhere green)
  /\ Path.set_green_path_diff_attrs nowhere green <> Raise ZeroDivisionError.
Proof.
  pose proof (len_diff_attrs nowhere green) as (_ & Hzero & Hret). split.
  - apply (Hret (PyFloat 7.5) (PyInt 0)); try reflexivity.
    + left. eexists. reflexivity.
    + right. reflexivity.
    + intros mine theirs d. eexists. reflexivity.
    + intros mine theirs d. eexists. reflexivity.
  - apply (Hzero (PyInt 0)); reflexivity.
Defined.

(** The differences of [green] to [shortest]: 2.5 longer, that is 50 %;
    and to [nowhere]: 7.5 longer, with the ratio 0. *)
Example len_diff_attrs_example :
  (exists p', Path.set_green_path_diff_attrs shortest green = Ok p'
              /\ Path.len_diff p' = PyFloat 2.5
              /\ Path.len_diff_rat p' = Some (PyFloat 50))
  /\ (exists p', Path.set_green_path_diff_attrs nowhere green = Ok p'
                 /\ Path.len_diff p' = PyFloat 7.5
                 /\ Path.len_diff_rat p' = Some (PyInt 0)).
Proof. split; eexists; (split; [vm_compute; reflexivity|]); split; reflexivity. Qed.

Lemma green_without_diff : Path.without_diff green.
Proof.
  apply (Path.wd_set_aqi_attrs green3); [|vm_compute; reflexivity].
  apply (Path.wd_set_noise_attrs no_costs green2); [|vm_compute; reflexivity].
  apply (Path.wd_aggregate_path_attrs green1); [|vm_compute; reflexivity].
  apply (Path.wd_set_path_edges G green0); [|vm_compute; reflexivity].
  apply Path.wd_init.
Defined.

Lemma len_diff_rat_none_emitted_witness :
  exists f, Path.get_as_geojson_feature green = Ok f
            /\ properties f !! "len_diff_rat" = Some VNone.
Proof.
  eexists. split; [vm_compute; reflexivity|].
  apply (proj2 len_diff_rat_none_emitted green).
  - exact green_without_diff.
  - split; intros s d _ Hd; inversion Hd; reflexivity.
  - vm_compute. reflexivity.
Defined.

(** The one group of a path without edges becomes a LineString feature
    without coordinates. *)
Example no_edge_group_feature :
  exists p', Path.aggregate_edge_groups_by_attr true false nowhere = Ok p'
             /\ Path.edge_groups p' = [(0, [])]
             /\ map (fun f => coordinates (feature_geom f))
                  (Path.get_edge_groups_as_features p') = [[]].
Proof. eexists. split; [vm_compute; reflexivity|]. split; reflexivity. Qed.

(** ** The further properties on examples *)

Lemma appends_iff_run_partition_witness :
  Path.appends true false three_edges [(1, [e0]); (2, [e1]); (1, [e2])]
  <-> Path.run_partition true (Path.edges three_edges)
        [(1, [e0]); (2, [e1]); (1, [e2])].
Proof.
  apply (appends_iff_run_partition true false three_edges); discriminate.
Defined.

Lemma same_value_one_group_witness :
  Path.appends true false same_class [(1, [e0; e2])].
Proof.
  apply (same_value_one_group true false same_class 1).
  - discriminate.
  - discriminate.
  - repeat constructor.
Defined.

Lemma group_features_cover_path_witness :
  List.length (Path.get_edge_groups_as_features grouped) = 3%nat
  /\ forall f, Path.get_as_geojson_feature grouped = Ok f ->
       concat (map (fun g => coordinates (feature_geom g))
                 (Path.get_edge_groups_as_features grouped))
       = coordinates (feature_geom f).
Proof.
  assert (Hgrouped : Path.aggregate_edge_groups_by_attr true false three_edges
                     = Ok grouped) by (vm_compute; reflexivity).
  destruct (group_features_cover_path true false three_edges grouped
              eq_refl Hgrouped) as (Hlen & _ & Hcover).
  split; [rewrite Hlen; reflexivity | exact Hcover].
Defined.

Lemma aggregate_path_attrs_outcome_witness :
  returns (Path.aggregate_path_attrs three_edges)
  /\ Path.aggregate_path_attrs (path_of [edge_no_coords])
     = Raise (Propagated "ValueError").
Proof.
  split.
  - apply (proj2 (aggregate_path_attrs_outcome three_edges)).
    eexists. reflexivity.
  - apply (proj1 (aggregate_path_attrs_outcome (path_of [edge_no_coords]))).
    eexists. split; reflexivity.
Defined.

Lemma aggregate_path_attrs_idempotent_witness :
  Path.aggregate_path_attrs aggregated = Ok aggregated.
Proof.
  apply (aggregate_path_attrs_idempotent three_edges aggregated).
  vm_compute. reflexivity.
Defined.

Lemma aggregated_lengths_witness :
  Path.length nowhere = Some (PyInt 0)
  /\ Path.length_b nowhere = Some (PyInt 0)
  /\ Path.missing_noises nowhere = false /\ Path.missing_aqi nowhere = false.
Proof.
  assert (Hagg : Path.aggregate_path_attrs no_edges = Ok nowhere)
    by (vm_compute; reflexivity).
  apply (proj1 (aggregated_lengths no_edges nowhere Hagg)). reflexivity.
Defined.

Lemma summaries_iff_complete_data_witness :
  is_Some (Path.noise_attrs green)
  <-> Forall (fun e => is_Some (PathEdge.noises e)) (Path.edges green1).
Proof.
  apply (summaries_iff_complete_data green1 green2 green3 green no_costs);
    solve [reflexivity | vm_compute; reflexivity].
Defined.

Lemma feature_needs_aggregation_witness :
  Path.get_as_geojson_feature green0
  = Raise (AttributeError "length_b").
Proof.
  destruct (feature_needs_aggregation green0) as [Hbefore _].
  - apply Path.wd_init.
  - destruct (Hbefore eq_refl) as [_ Hraise].
    apply (Hraise (VStr "clean")). reflexivity.
Defined.

Lemma diff_needs_aggregation_witness :
  Path.set_green_path_diff_attrs green0 green = Raise TypeError.
Proof.
  apply diff_needs_aggregation. right. split; [apply Path.wd_init | reflexivity].
Defined.

Lemma self_diff_is_zero_witness :
  exists p', Path.set_green_path_diff_attrs green green = Ok p'
             /\ is_zero (Path.len_diff p') = true
             /\ exists r, Path.len_diff_rat p' = Some r /\ is_zero r = true.
Proof.
  destruct (self_diff_is_zero green (PyFloat 7.5) eq_refl eq_refl)
    as [Hzero _].
  eexists. split; [vm_compute; reflexivity|].
  apply Hzero. vm_compute. reflexivity.
Defined.

Lemma feature_properties_merge_witness :
  properties green_feature !! "nei" = Some (VNum (PyFloat 7.5))
  /\ is_Some (properties green_feature !! "length").
Proof.
  assert (Hf : Path.get_as_geojson_feature green = Ok green_feature)
    by (vm_compute; reflexivity).
  destruct (feature_properties_merge green green_feature Hf)
    as (_ & Hnoise & Hnine).
  split.
  - apply (Hnoise (PyFloat 7.5) {[ "nei" := VNum (PyFloat 7.5) ]});
      try reflexivity.
    intros aa d _ Hd. inversion Hd. reflexivity.
  - apply Forall_cons in Hnine as [_ Hnine].
    apply Forall_cons in Hnine as [_ Hnine].
    apply Forall_cons in Hnine as [Hlength _]. exact Hlength.
Defined.

Lemma lat_lon_coords_witness :
  geometry.get_coords_from_lat_lon
    (<["lat" := 60.25%float]> (<["lon" := 24.5%float]> ∅))
  = geometry.Done [24.5%float; 60.25%float]
  /\ geometry.get_coords_from_lat_lon (<["lat" := 60.25%float]> ∅)
     = geometry.Error (geometry.KeyError (geometry.KStr "lon")).
Proof.
  split.
  - apply (proj1 (lat_lon_coords
                    (<["lat" := 60.25%float]> (<["lon" := 24.5%float]> ∅))));
      reflexivity.
  - apply (proj1 (proj2 (lat_lon_coords (<["lat" := 60.25%float]> ∅)))).
    reflexivity.
Defined.

Lemma project_geom_pairs_witness :
  geometry.project_geom shape 4326 4326
  = geometry.Error (geometry.KeyError (geometry.KPair 4326 4326))
  /\ geometry.project_geom shape 3879 4326 = geometry.Done shape.
Proof.
  split.
  - apply (proj1 (proj2 (proj2 (project_geom_pairs shape 4326 4326)))).
    reflexivity.
  - apply (proj1 (project_geom_pairs shape 3879 4326)). right. split; reflexivity.
Defined.

Lemma get_split_lines_outcome_witness :
  (exists msg, geometry.get_split_lines axis west geometry.default_tolerance
               = geometry.Error (geometry.ValueError msg))
  /\ geometry.get_split_lines axis middle geometry.default_tolerance
     = geometry.Done [[west; middle]; [middle; east]].
Proof.
  split.
  - apply (proj2 (proj2 (get_split_lines_outcome axis west
                           geometry.default_tolerance)) axis axis);
      reflexivity.
  - apply (proj1 (get_split_lines_outcome axis middle
                    geometry.default_tolerance)).
    exists axis. repeat split. discriminate.
Defined.


End Examples.
